(** * Weather MCP server: the TTL response cache and the request dispatcher

    A shallow embedding of [tools/common.py] (cache key derivation, the
    process-wide TTL cache, [make_weather_request]) and of the tool functions
    built on it ([tools/get_current_weather.py], [tools/compare_weather.py]
    and their four siblings), followed by the properties of the cache and of
    the dispatcher.

    Modelling conventions.
    - A Python [str] is a Rocq [string]; every character stands for the code
      point of the same number (0..255).
    - A Python [int] is a [Z].  A Python [float] is carried by its [repr]
      (the shortest decimal text that reads back as the same double), so
      [15.5] is [JFloat "15.5"]; no arithmetic is ever done on payload floats.
    - Wall-clock readings ([datetime.now().timestamp()]) are rationals, in
      seconds; the rounding of the float subtraction [now - storedAt] is not
      modelled.
    - A Python [dict] is an association list in insertion order whose keys are
      pairwise distinct.
    - Payload objects returned by [response.json()] live in a heap and are
      referred to by location, because the cache and the caller share them. *)

From Stdlib Require Import Ascii String QArith Lqa DecimalString DecimalPos DecimalZ.
From stdpp Require Import gmap strings list fin_maps sorting.

Set Warnings "-register-all".
Local Open Scope string_scope.
Local Open Scope Z_scope.

(** ** Python values *)

Module Py.

Inductive json : Type :=
| JNull
| JBool (b : bool)
| JInt (n : Z)
| JFloat (repr : string)
| JStr (s : string)
| JList (xs : list json)
| JDict (items : list (string * json)).

(** A dict: items in insertion order. *)
Definition dict : Type := list (string * json).

(** Keys of a Python dict are pairwise distinct. *)
Definition dict_wf (d : dict) : Prop := NoDup d.*1.

(** [d.get(k)] without default, as an option. *)
Fixpoint dict_lookup (k : string) (d : dict) : option json :=
  match d with
  | [] => None
  | (k', v) :: d' => if decide (k' = k) then Some v else dict_lookup k d'
  end.

(** [d[k] = v]: replaces the value in place when [k] is a key, appends the
    item otherwise. *)
Fixpoint dict_set (k : string) (v : json) (d : dict) : dict :=
  match d with
  | [] => [(k, v)]
  | (k', v') :: d' =>
      if decide (k' = k) then (k', v) :: d' else (k', v') :: dict_set k v d'
  end.

(** Truth value of an object, as tested by [if x:]. *)
Definition truthy (j : json) : bool :=
  match j with
  | JNull => false
  | JBool b => b
  | JInt n => negb (n =? 0)
  | JFloat r => negb (String.eqb r "0.0" || String.eqb r "-0.0")
  | JStr s => negb (String.eqb s EmptyString)
  | JList xs => match xs with [] => false | _ => true end
  | JDict items => match items with [] => false | _ => true end
  end.

(** [str(n)] for an int. *)
Definition str_of_int (n : Z) : string := NilZero.string_of_int (Z.to_int n).

Definition dquote : ascii := ascii_of_N 34.
Definition backslash : ascii := ascii_of_N 92.

End Py.
Export Py.

(** ** [json.dumps(obj, sort_keys=True)] *)

Module Json.

Definition hex_digit (n : N) : ascii :=
  match String.get (N.to_nat n) "0123456789abcdef" with
  | Some c => c
  | None => "0"%char
  end.

(** One character of [py_encode_basestring_ascii]: the short escapes, the
    printable ASCII range as it is, a four-digit [\u] escape for the rest.
    The characters of these strings are the code points below 256;
    [Unicode.escape_code_point] below covers every code point. *)
Definition escape_char (c : ascii) : string :=
  let n := N_of_ascii c in
  if (n =? 34)%N then String backslash (String dquote EmptyString)
  else if (n =? 92)%N then String backslash (String backslash EmptyString)
  else if (n =? 10)%N then String backslash "n"
  else if (n =? 13)%N then String backslash "r"
  else if (n =? 9)%N then String backslash "t"
  else if (n =? 8)%N then String backslash "b"
  else if (n =? 12)%N then String backslash "f"
  else if ((32 <=? n) && (n <=? 126))%N then String c EmptyString
  else String backslash
         ("u00" +:+ String (hex_digit (n / 16)) (String (hex_digit (n mod 16)) EmptyString)).

Fixpoint escape_chars (s : string) : string :=
  match s with
  | EmptyString => EmptyString
  | String c s' => escape_char c +:+ escape_chars s'
  end.

(** A text between double quotes. *)
Definition quoted (s : string) : string :=
  String dquote (s +:+ String dquote EmptyString).

Definition encode_basestring_ascii (s : string) : string := quoted (escape_chars s).

(** [float.__repr__], except for the three specials of the encoder. *)
Definition floatstr (r : string) : string :=
  if String.eqb r "nan" then "NaN"
  else if String.eqb r "inf" then "Infinity"
  else if String.eqb r "-inf" then "-Infinity"
  else r.

Fixpoint join (sep : string) (l : list string) : string :=
  match l with
  | [] => EmptyString
  | [x] => x
  | x :: l' => x +:+ sep +:+ join sep l'
  end.

(** [sorted(dct.items())]: the keys of a dict are distinct strings, so
    the comparison of two items is decided by their keys, compared code
    point by code point. The sort is stable; it is written as an insertion
    sort. *)
Section Sort.
Context {A : Type}.

Fixpoint insert_item (x : string * A) (l : list (string * A)) : list (string * A) :=
  match l with
  | [] => [x]
  | y :: l' => if String.leb x.1 y.1 then x :: l else y :: insert_item x l'
  end.

Definition sorted_items (l : list (string * A)) : list (string * A) :=
  foldr insert_item [] l.
End Sort.

(** An item of a dict, once its value is rendered: [key: value]. *)
Definition render_item (kv : string * string) : string :=
  encode_basestring_ascii kv.1 +:+ ": " +:+ kv.2.

(** The encoder. The values of a dict are rendered item by item and the
    rendered items are then put in key order, which gives the text of
    rendering the items in key order. *)
Fixpoint dumps (j : json) : string :=
  match j with
  | JNull => "null"
  | JBool true => "true"
  | JBool false => "false"
  | JInt n => str_of_int n
  | JFloat r => floatstr r
  | JStr s => encode_basestring_ascii s
  | JList xs => "[" +:+ join ", " (map dumps xs) +:+ "]"
  | JDict items =>
      "{" +:+ join ", " (map render_item
                (sorted_items (map (fun kv => let '(k, v) := kv in (k, dumps v)) items)))
          +:+ "}"
  end.

End Json.

(** ** tools/common.py: the cache *)

(** [get_cache_key(endpoint, params)]:
    [f"{endpoint}:{json.dumps(params, sort_keys=True)}"]. *)
Definition get_cache_key (endpoint : string) (params : dict) : string :=
  endpoint +:+ ":" +:+ Json.dumps (JDict params).

(** A payload object is referred to by its location in the heap. *)
Definition loc : Type := positive.

(** A cache entry: [{"data": data, "timestamp": timestamp}]. *)
Record CacheEntry : Type := { data : loc; timestamp : Q }.

(** [CACHE_TTL = 600  # 10 minutes] *)
Definition CACHE_TTL : Q := 600.

Definition Qltb (x y : Q) : bool := negb (Qle_bool y x).

(** [get_cached(key)] read at clock [now]: the result and the cache it
    leaves. A stale entry is deleted by the read. *)
Definition get_cached (now : Q) (key : string) (cache : gmap string CacheEntry)
  : option loc * gmap string CacheEntry :=
  match cache !! key with
  | Some cached =>
      if Qltb (now - timestamp cached) CACHE_TTL
      then (Some (data cached), cache)
      else (None, delete key cache)
  | None => (None, cache)
  end.

(** [set_cache(key, data)] executed at clock [now]. *)
Definition set_cache (now : Q) (key : string) (d : loc) (cache : gmap string CacheEntry)
  : gmap string CacheEntry :=
  <[key := {| data := d; timestamp := now |}]> cache.

(** ** The process state and its environment *)

(** The mutable state of the process: the payload objects, the module-level
    [_cache], the wall clock, and the log of the GET requests sent upstream
    (oldest first). *)
Record World : Type := {
  heap : gmap loc json;
  _cache : gmap string CacheEntry;
  clock : Q;
  calls : list (string * dict)
}.

Definition with_heap (h : gmap loc json) (w : World) : World :=
  {| heap := h; _cache := _cache w; clock := clock w; calls := calls w |}.
Definition with_cache (c : gmap string CacheEntry) (w : World) : World :=
  {| heap := heap w; _cache := c; clock := clock w; calls := calls w |}.
Definition advance (dt : Q) (w : World) : World :=
  {| heap := heap w; _cache := _cache w; clock := (clock w + dt)%Q; calls := calls w |}.

(** What the [try] block around [client.get(endpoint, params=params,
    timeout=10.0)] can observe. *)
Inductive HttpOutcome : Type :=
| Response (status_code : Z) (body : string + json)
    (** a response; [body] is what [response.json()] gives: the parsed value,
        or the text [str(e)] of the exception it raises *)
| TimeoutException                 (** [httpx.TimeoutException] *)
| RequestError (msg : string)      (** any other [httpx.RequestError], [str(e) = msg] *)
| OtherException (msg : string).   (** any other [Exception], [str(e) = msg] *)

Inductive exn : Type :=
| TypeError | AttributeError | IndexError | KeyError | ValueError | OverflowError | OSError.

Inductive PyResult (A : Type) : Type :=
| Return (a : A)
| Raise (e : exn).
Arguments Return {A} a.
Arguments Raise {A} e.

#[global] Instance PyResult_ret : MRet PyResult := @Return.
#[global] Instance PyResult_bind : MBind PyResult := fun A B f m =>
  match m with
  | Return a => f a
  | Raise e => Raise e
  end.

(** What the code takes from outside.
    - [API_KEY]: [os.getenv("OPENWEATHER_API_KEY", "")], read at import.
    - [upstream n endpoint params]: the outcome of the [n]-th GET (counted
      from 0) and the seconds it takes.
    - [fromtimestamp_isoformat x]: [datetime.fromtimestamp(x).isoformat()],
      in the time zone of the process.
    - [now_isoformat t]: [datetime.now().isoformat()] at clock [t]. *)
Record Env : Type := {
  API_KEY : string;
  upstream : nat → string → dict → HttpOutcome * Q;
  fromtimestamp_isoformat : json → PyResult string;
  now_isoformat : Q → string
}.

(** The dict [make_weather_request] returns: [{"success": True, "data": data}]
    or [{"success": False, "error": error}], the latter with a
    ["status_code"] item for a response with a failure status. *)
Inductive Result : Type :=
| Success (d : loc)
| Failure (error : string) (status_code : option Z).

Definition BASE_URL : string := "https://api.openweathermap.org/data/2.5".
Definition GEO_URL : string := "http://api.openweathermap.org/geo/1.0".

(** The object at a location. *)
Definition deref (w : World) (l : loc) : json := default JNull (heap w !! l).

(** ** tools/common.py: [make_weather_request] *)

(** The part after [params["appid"] = API_KEY]: one GET, then the
    classification of its outcome. [w] is the state after the cache lookup. *)
Definition fetch (env : Env) (endpoint cache_key : string) (params : dict) (w : World)
  : PyResult Result * World :=
  let '(outcome, dt) := upstream env (length (calls w)) endpoint params in
  let w1 := {| heap := heap w; _cache := _cache w; clock := (clock w + dt)%Q;
               calls := calls w ++ [(endpoint, params)] |} in
  match outcome with
  | Response status_code body =>
      if status_code =? 200 then
        match body with
        | inr j =>
            let l := fresh (dom (heap w1)) in
            (Return (Success l),
             with_cache (set_cache (clock w1) cache_key l (_cache w1))
                        (with_heap (<[l := j]> (heap w1)) w1))
        | inl msg => (Return (Failure ("Unexpected error: " +:+ msg) None), w1)
        end
      else if status_code =? 401 then
        (Return (Failure "Invalid API key" (Some 401)), w1)
      else if status_code =? 404 then
        (Return (Failure "Location not found" (Some 404)), w1)
      else
        (Return (Failure ("API error: " +:+ str_of_int status_code) (Some status_code)), w1)
  | TimeoutException => (Return (Failure "Request timed out" None), w1)
  | RequestError msg => (Return (Failure ("Request failed: " +:+ msg) None), w1)
  | OtherException msg => (Return (Failure ("Unexpected error: " +:+ msg) None), w1)
  end.

Definition make_weather_request (env : Env) (endpoint : string) (params : dict) (w : World)
  : PyResult Result * World :=
  if negb (truthy (JStr (API_KEY env))) then
    (Return (Failure
       "API key not configured. Please set OPENWEATHER_API_KEY environment variable." None), w)
  else
    let cache_key := get_cache_key endpoint params in
    let '(cached, c) := get_cached (clock w) cache_key (_cache w) in
    let w1 := with_cache c w in
    let miss := fetch env endpoint cache_key (dict_set "appid" (JStr (API_KEY env)) params) w1 in
    match cached with
    | Some l =>
        if truthy (deref w1 l) then
          (* cached["_from_cache"] = True *)
          match deref w1 l with
          | JDict d =>
              (Return (Success l),
               with_heap (<[l := JDict (dict_set "_from_cache" (JBool true) d)]> (heap w1)) w1)
          | _ => (Raise TypeError, w1)
          end
        else miss
    | None => miss
    end.

(** ** The tools *)

(** The dict of a failed request, which the tools return as it is. *)
Definition failure_dict (error : string) (status_code : option Z) : json :=
  JDict ([("success", JBool false); ("error", JStr error)]
         ++ match status_code with
            | Some c => [("status_code", JInt c)]
            | None => []
            end).

(** [obj.get(k, dflt)] *)
Definition py_get (obj : json) (k : string) (dflt : json) : PyResult json :=
  match obj with
  | JDict d => Return (default dflt (dict_lookup k d))
  | _ => Raise AttributeError
  end.

(** [obj[0]]; a key of a parsed JSON object is a string, never [0]. *)
Definition py_first (obj : json) : PyResult json :=
  match obj with
  | JList (x :: _) => Return x
  | JList [] => Raise IndexError
  | JStr (String c _) => Return (JStr (String c EmptyString))
  | JStr EmptyString => Raise IndexError
  | JDict _ => Raise KeyError
  | _ => Raise TypeError
  end.

(** The elements a [for] loop visits. *)
Definition py_iter (obj : json) : PyResult (list json) :=
  match obj with
  | JList xs => Return xs
  | JDict d => Return (map (fun kv => JStr kv.1) d)
  | JStr s => Return (map (fun c => JStr (String c EmptyString)) (list_ascii_of_string s))
  | _ => Raise TypeError
  end.

(** [obj.get(k1, {}).get(k2)] *)
Definition get2 (obj : json) (k1 k2 : string) : PyResult json :=
  x ← py_get obj k1 (JDict []); py_get x k2 JNull.

(** [obj.get("weather", [{}])[0].get(k)] *)
Definition weather0 (obj : json) (k : string) : PyResult json :=
  x ← py_get obj "weather" (JList [JDict []]); y ← py_first x; py_get y k JNull.

(** [for x in xs: out.append(f(x))] *)
Fixpoint for_each {A B : Type} (f : A → PyResult B) (xs : list A) : PyResult (list B) :=
  match xs with
  | [] => Return []
  | x :: xs' => y ← f x; ys ← for_each f xs'; Return (y :: ys)
  end.

(** *** tools/get_current_weather.py *)

Definition current_weather_output (env : Env) (units : string) (d : json) : PyResult json :=
  name ← py_get d "name" JNull;
  country ← get2 d "sys" "country";
  lat ← get2 d "coord" "lat";
  lon ← get2 d "coord" "lon";
  temp ← get2 d "main" "temp";
  feels_like ← get2 d "main" "feels_like";
  temp_min ← get2 d "main" "temp_min";
  temp_max ← get2 d "main" "temp_max";
  pressure ← get2 d "main" "pressure";
  humidity ← get2 d "main" "humidity";
  description ← weather0 d "description";
  icon ← weather0 d "icon";
  speed ← get2 d "wind" "speed";
  deg ← get2 d "wind" "deg";
  clouds ← get2 d "clouds" "all";
  visibility ← py_get d "visibility" JNull;
  dt ← py_get d "dt" (JInt 0);
  ts ← fromtimestamp_isoformat env dt;
  sys ← py_get d "sys" (JDict []);
  sunrise ← py_get sys "sunrise" (JInt 0);
  sunrise_iso ← fromtimestamp_isoformat env sunrise;
  sys' ← py_get d "sys" (JDict []);
  sunset ← py_get sys' "sunset" (JInt 0);
  sunset_iso ← fromtimestamp_isoformat env sunset;
  Return (JDict [
    ("success", JBool true);
    ("location", JDict [
       ("name", name);
       ("country", country);
       ("coordinates", JDict [("latitude", lat); ("longitude", lon)])]);
    ("current", JDict [
       ("temperature", temp);
       ("feels_like", feels_like);
       ("temp_min", temp_min);
       ("temp_max", temp_max);
       ("pressure", pressure);
       ("humidity", humidity);
       ("description", description);
       ("icon", icon);
       ("wind", JDict [("speed", speed); ("direction", deg)]);
       ("clouds", clouds);
       ("visibility", visibility)]);
    ("timestamp", JStr ts);
    ("sunrise", JStr sunrise_iso);
    ("sunset", JStr sunset_iso);
    ("units", JStr units)]).

(** The common frame of the five single-request tools: one request, the
    failure dict returned as it is, the payload reshaped otherwise. *)
Definition request_then (env : Env) (endpoint : string) (params : dict)
    (output : json → PyResult json) (w : World) : PyResult json * World :=
  let '(result, w') := make_weather_request env endpoint params w in
  match result with
  | Raise e => (Raise e, w')
  | Return (Failure error status_code) => (Return (failure_dict error status_code), w')
  | Return (Success l) => (output (deref w' l), w')
  end.

Definition get_current_weather (env : Env) (location units : string) (w : World)
  : PyResult json * World :=
  request_then env (BASE_URL +:+ "/weather")
    [("q", JStr location); ("units", JStr units)]
    (current_weather_output env units) w.

(** *** tools/get_forecast.py *)

(** [obj.get(k1, {}).get(k2, {}).get(k3)] *)
Definition get3 (obj : json) (k1 k2 k3 : string) : PyResult json :=
  x ← py_get obj k1 (JDict []); y ← py_get x k2 (JDict []); py_get y k3 JNull.

Definition forecast_item (env : Env) (item : json) : PyResult json :=
  dt ← py_get item "dt" (JInt 0);
  iso ← fromtimestamp_isoformat env dt;
  temp ← get2 item "main" "temp";
  feels_like ← get2 item "main" "feels_like";
  temp_min ← get2 item "main" "temp_min";
  temp_max ← get2 item "main" "temp_max";
  pressure ← get2 item "main" "pressure";
  humidity ← get2 item "main" "humidity";
  description ← weather0 item "description";
  icon ← weather0 item "icon";
  wind_speed ← get2 item "wind" "speed";
  clouds ← get2 item "clouds" "all";
  pop ← py_get item "pop" (JInt 0);
  Return (JDict [
    ("datetime", JStr iso);
    ("temperature", temp);
    ("feels_like", feels_like);
    ("temp_min", temp_min);
    ("temp_max", temp_max);
    ("pressure", pressure);
    ("humidity", humidity);
    ("description", description);
    ("icon", icon);
    ("wind_speed", wind_speed);
    ("clouds", clouds);
    ("pop", pop)]).

Definition forecast_output (env : Env) (units : string) (d : json) : PyResult json :=
  items ← py_get d "list" (JList []);
  xs ← py_iter items;
  forecasts ← for_each (forecast_item env) xs;
  name ← get2 d "city" "name";
  country ← get2 d "city" "country";
  lat ← get3 d "city" "coord" "lat";
  lon ← get3 d "city" "coord" "lon";
  Return (JDict [
    ("success", JBool true);
    ("location", JDict [
       ("name", name);
       ("country", country);
       ("coordinates", JDict [("latitude", lat); ("longitude", lon)])]);
    ("forecast", JList forecasts);
    ("units", JStr units)]).

Definition get_forecast (env : Env) (location units : string) (days : Z) (w : World)
  : PyResult json * World :=
  request_then env (BASE_URL +:+ "/forecast")
    [("q", JStr location); ("units", JStr units); ("cnt", JInt (Z.min days 5 * 8))]
    (forecast_output env units) w.

(** *** tools/search_location.py *)

Definition location_item (item : json) : PyResult json :=
  name ← py_get item "name" JNull;
  local_names ← py_get item "local_names" (JDict []);
  country ← py_get item "country" JNull;
  state ← py_get item "state" JNull;
  lat ← py_get item "lat" JNull;
  lon ← py_get item "lon" JNull;
  Return (JDict [
    ("name", name);
    ("local_names", local_names);
    ("country", country);
    ("state", state);
    ("coordinates", JDict [("latitude", lat); ("longitude", lon)])]).

Definition search_output (query : string) (d : json) : PyResult json :=
  xs ← py_iter d;
  locations ← for_each location_item xs;
  Return (JDict [
    ("success", JBool true);
    ("query", JStr query);
    ("results", JList locations);
    ("count", JInt (Z.of_nat (length locations)))]).

Definition search_location (env : Env) (query : string) (limit : Z) (w : World)
  : PyResult json * World :=
  request_then env (GEO_URL +:+ "/direct")
    [("q", JStr query); ("limit", JInt (Z.min limit 10))]
    (search_output query) w.

(** *** tools/get_weather_by_coordinates.py

    The two coordinates are floats, given by their [repr]. *)

Definition coordinates_output (env : Env) (latitude longitude units : string) (d : json)
  : PyResult json :=
  name ← py_get d "name" JNull;
  country ← get2 d "sys" "country";
  temp ← get2 d "main" "temp";
  feels_like ← get2 d "main" "feels_like";
  humidity ← get2 d "main" "humidity";
  pressure ← get2 d "main" "pressure";
  description ← weather0 d "description";
  wind_speed ← get2 d "wind" "speed";
  clouds ← get2 d "clouds" "all";
  dt ← py_get d "dt" (JInt 0);
  ts ← fromtimestamp_isoformat env dt;
  Return (JDict [
    ("success", JBool true);
    ("location", JDict [
       ("name", name);
       ("country", country);
       ("coordinates", JDict [("latitude", JFloat latitude); ("longitude", JFloat longitude)])]);
    ("current", JDict [
       ("temperature", temp);
       ("feels_like", feels_like);
       ("humidity", humidity);
       ("pressure", pressure);
       ("description", description);
       ("wind_speed", wind_speed);
       ("clouds", clouds)]);
    ("timestamp", JStr ts);
    ("units", JStr units)]).

Definition get_weather_by_coordinates (env : Env) (latitude longitude units : string)
    (w : World) : PyResult json * World :=
  request_then env (BASE_URL +:+ "/weather")
    [("lat", JFloat latitude); ("lon", JFloat longitude); ("units", JStr units)]
    (coordinates_output env latitude longitude units) w.

(** *** tools/get_air_quality.py *)

(** [aqi_levels.get(aqi, "Unknown")] for the table with the int keys 1..5:
    a bool or a float equal to a key finds it, a list or a dict cannot be
    hashed. *)
Definition aqi_level (aqi : json) : PyResult json :=
  let level (n : Z) : json :=
    JStr (if n =? 1 then "Good" else if n =? 2 then "Fair" else if n =? 3 then "Moderate"
          else if n =? 4 then "Poor" else if n =? 5 then "Very Poor" else "Unknown") in
  match aqi with
  | JInt n => Return (level n)
  | JBool b => Return (level (if b then 1 else 0))
  | JFloat r =>
      Return (level (if String.eqb r "1.0" then 1 else if String.eqb r "2.0" then 2
                     else if String.eqb r "3.0" then 3 else if String.eqb r "4.0" then 4
                     else if String.eqb r "5.0" then 5 else 0))
  | JNull | JStr _ => Return (JStr "Unknown")
  | JList _ | JDict _ => Raise TypeError
  end.

Definition air_quality_output (env : Env) (latitude longitude : string) (d : json)
  : PyResult json :=
  items ← py_get d "list" (JList [JDict []]);
  air_data ← py_first items;
  aqi ← get2 air_data "main" "aqi";
  main ← py_get air_data "main" (JDict []);
  aqi0 ← py_get main "aqi" (JInt 0);
  level ← aqi_level aqi0;
  components ← py_get air_data "components" (JDict []);
  dt ← py_get air_data "dt" (JInt 0);
  ts ← fromtimestamp_isoformat env dt;
  Return (JDict [
    ("success", JBool true);
    ("coordinates", JDict [("latitude", JFloat latitude); ("longitude", JFloat longitude)]);
    ("air_quality_index", aqi);
    ("aqi_level", level);
    ("components", components);
    ("timestamp", JStr ts)]).

Definition get_air_quality (env : Env) (latitude longitude : string) (w : World)
  : PyResult json * World :=
  request_then env (BASE_URL +:+ "/air_pollution")
    [("lat", JFloat latitude); ("lon", JFloat longitude)]
    (air_quality_output env latitude longitude) w.

(** *** tools/compare_weather.py *)

Definition comparison_entry (d : json) : PyResult json :=
  name ← py_get d "name" JNull;
  country ← get2 d "sys" "country";
  temp ← get2 d "main" "temp";
  feels_like ← get2 d "main" "feels_like";
  humidity ← get2 d "main" "humidity";
  description ← weather0 d "description";
  wind_speed ← get2 d "wind" "speed";
  Return (JDict [
    ("location", JDict [("name", name); ("country", country)]);
    ("current", JDict [
       ("temperature", temp);
       ("feels_like", feels_like);
       ("humidity", humidity);
       ("description", description);
       ("wind_speed", wind_speed)])]).

(** The [for location in locations] loop, which appends one entry per
    location: the reshaped payload, or the location with the error of its
    request. *)
Fixpoint compare_loop (env : Env) (units : string) (locations : list string) (w : World)
  : PyResult (list json) * World :=
  match locations with
  | [] => (Return [], w)
  | location :: rest =>
      let '(result, w1) :=
        make_weather_request env (BASE_URL +:+ "/weather")
          [("q", JStr location); ("units", JStr units)] w in
      let entry :=
        match result with
        | Raise e => Raise e
        | Return (Success l) => comparison_entry (deref w1 l)
        | Return (Failure error _) =>
            Return (JDict [("location", JStr location); ("error", JStr error)])
        end in
      match entry with
      | Raise e => (Raise e, w1)
      | Return c =>
          let '(more, w2) := compare_loop env units rest w1 in
          (cs ← more; Return (c :: cs), w2)
      end
  end.

Definition compare_weather (env : Env) (locations : list string) (units : string) (w : World)
  : PyResult json * World :=
  if (length locations <? 2)%nat then
    (Return (JDict [("success", JBool false);
                    ("error", JStr "Please provide at least 2 locations to compare")]), w)
  else if (5 <? length locations)%nat then
    (Return (JDict [("success", JBool false);
                    ("error", JStr "Maximum 5 locations allowed for comparison")]), w)
  else
    let '(comparisons, w') := compare_loop env units locations w in
    (cs ← comparisons;
     Return (JDict [
       ("success", JBool true);
       ("locations", JList cs);
       ("units", JStr units);
       ("comparison_time", JStr (now_isoformat env (clock w')))]), w').

(** * Notions used by the statements *)

(** Items in ascending key order. *)
Definition key_le {A : Type} (x y : string * A) : Prop := String.leb x.1 y.1 = true.

(** The items of a dict as the encoder orders them: key and rendered value. *)
Definition serialized_items (params : dict) : list (string * string) :=
  Json.sorted_items (map (λ kv, let '(k, v) := kv in (k, Json.dumps v)) params).


(** The parameters as they are sent upstream, after [params["appid"] = API_KEY]. *)
Definition sent_params (env : Env) (params : dict) : dict :=
  dict_set "appid" (JStr (API_KEY env)) params.

(** The request takes the [if cached:] branch: the lookup returns an object
    and the object is true. *)
Definition cache_hit (endpoint : string) (params : dict) (w : World) : bool :=
  match (get_cached (clock w) (get_cache_key endpoint params) (_cache w)).1 with
  | Some l => truthy (deref w l)
  | None => false
  end.

(** The cache as the lookup of the request leaves it. *)
Definition cache_after_lookup (endpoint : string) (params : dict) (w : World)
  : gmap string CacheEntry :=
  (get_cached (clock w) (get_cache_key endpoint params) (_cache w)).2.

(** The outcome the request gets when it goes upstream from [w]. *)
Definition outcome_of (env : Env) (endpoint : string) (params : dict) (w : World)
  : HttpOutcome :=
  (upstream env (length (calls w)) endpoint (sent_params env params)).1.

(** A 200 response whose body parses. *)
Definition is_success (o : HttpOutcome) : bool :=
  match o with
  | Response status_code (inr _) => status_code =? 200
  | _ => false
  end.

(** The payload object at [l] carries [_from_cache: True]. *)
Definition marked (w : World) (l : loc) : Prop :=
  ∃ d, heap w !! l = Some (JDict d) ∧ dict_lookup "_from_cache" d = Some (JBool true).

(** What can happen to the process state: time passes, or a request is made. *)
Inductive step (env : Env) : World → World → Prop :=
| step_idle w dt : step env w (advance dt w)
| step_request w endpoint params :
    step env w (make_weather_request env endpoint params w).2.

(** Reading a nested field: [obj[k1][k2]...]. *)
Fixpoint path (ks : list string) (obj : json) : option json :=
  match ks with
  | [] => Some obj
  | k :: ks' =>
      match obj with
      | JDict d => dict_lookup k d ≫= path ks'
      | _ => None
      end
  end.

(** ** Concrete environments and states *)

Definition test_api_key : string := "test_api_key_12345".

(** An upstream that answers every request with the same outcome, at once. *)
Definition env_with (api_key : string) (o : HttpOutcome) : Env :=
  {| API_KEY := api_key;
     upstream := λ _ _ _, (o, 0%Q);
     fromtimestamp_isoformat := λ _, Return "2023-10-16T09:53:20";
     now_isoformat := λ _, "2023-10-16T09:53:20" |}.

(** The canned payload of tests/test_server.py. *)
Definition mock_weather_response : json :=
  JDict [
    ("name", JStr "London");
    ("sys", JDict [("country", JStr "GB"); ("sunrise", JInt 1697440920);
                   ("sunset", JInt 1697480100)]);
    ("coord", JDict [("lat", JFloat "51.5074"); ("lon", JFloat "-0.1278")]);
    ("main", JDict [("temp", JFloat "15.5"); ("feels_like", JFloat "14.2");
                    ("temp_min", JFloat "13.0"); ("temp_max", JFloat "17.0");
                    ("pressure", JInt 1013); ("humidity", JInt 72)]);
    ("weather", JList [JDict [("description", JStr "partly cloudy"); ("icon", JStr "02d")]]);
    ("wind", JDict [("speed", JFloat "5.2"); ("deg", JInt 230)]);
    ("clouds", JDict [("all", JInt 40)]);
    ("visibility", JInt 10000);
    ("dt", JInt 1697450000)].

Definition london_params : dict := [("q", JStr "London,UK"); ("units", JStr "metric")].
Definition london_key : string := get_cache_key (BASE_URL +:+ "/weather") london_params.

(** A fresh process. *)
Definition empty_world : World :=
  {| heap := ∅; _cache := ∅; clock := 1697450000; calls := [] |}.

(** A process that cached the London payload at [stored_at]. *)
Definition london_world (stored_at now : Q) : World :=
  {| heap := {[ 1%positive := mock_weather_response ]};
     _cache := {[ london_key := {| data := 1%positive; timestamp := stored_at |} ]};
     clock := now;
     calls := [] |}.

(** ** Payloads the current-weather tool can reshape *)

(** The field is missing or a JSON object, so [.get(k, {}).get(...)] works. *)
Definition object_or_absent (k : string) (d : dict) : Prop :=
  match dict_lookup k d with
  | Some (JDict _) | None => True
  | Some _ => False
  end.

(** ["weather"] is missing or a list that begins with a JSON object. *)
Definition weather_readable (d : dict) : Prop :=
  match dict_lookup "weather" d with
  | Some (JList (JDict _ :: _)) | None => True
  | Some _ => False
  end.

(** [datetime.fromtimestamp] accepts the value of the field, or the default 0. *)
Definition time_readable (env : Env) (k : string) (d : dict) : Prop :=
  ∃ iso, fromtimestamp_isoformat env (default (JInt 0) (dict_lookup k d)) = Return iso.

Definition well_shaped (env : Env) (d sys : dict) : Prop :=
  object_or_absent "coord" d ∧ object_or_absent "wind" d ∧ object_or_absent "clouds" d
  ∧ weather_readable d
  ∧ time_readable env "dt" d ∧ time_readable env "sunrise" sys ∧ time_readable env "sunset" sys.

(** The text of the failure for a missing key. *)
Definition not_configured : string :=
  "API key not configured. Please set OPENWEATHER_API_KEY environment variable.".

(** A payload with the three London fields and an empty ["weather"] list. *)
Definition london_without_weather : json :=
  JDict [
    ("name", JStr "London");
    ("sys", JDict [("country", JStr "GB")]);
    ("main", JDict [("temp", JFloat "15.5")]);
    ("weather", JList [])].

(** ** The requests of the tools

    The endpoint and the parameters each tool passes to
    [make_weather_request]; [compare_weather] makes the request of
    [get_current_weather] for each of its locations. *)

Inductive ToolCall : Type :=
| CurrentWeather (location units : string)
| Forecast (location units : string) (days : Z)
| SearchLocation (query : string) (limit : Z)
| ByCoordinates (latitude longitude units : string)
| AirQuality (latitude longitude : string).

Definition request_of (c : ToolCall) : string * dict :=
  match c with
  | CurrentWeather location units =>
      (BASE_URL +:+ "/weather", [("q", JStr location); ("units", JStr units)])
  | Forecast location units days =>
      (BASE_URL +:+ "/forecast",
       [("q", JStr location); ("units", JStr units); ("cnt", JInt (Z.min days 5 * 8))])
  | SearchLocation query limit =>
      (GEO_URL +:+ "/direct", [("q", JStr query); ("limit", JInt (Z.min limit 10))])
  | ByCoordinates latitude longitude units =>
      (BASE_URL +:+ "/weather",
       [("lat", JFloat latitude); ("lon", JFloat longitude); ("units", JStr units)])
  | AirQuality latitude longitude =>
      (BASE_URL +:+ "/air_pollution", [("lat", JFloat latitude); ("lon", JFloat longitude)])
  end.

Definition key_of (c : ToolCall) : string :=
  get_cache_key (request_of c).1 (request_of c).2.

Definition same_tool (c1 c2 : ToolCall) : bool :=
  match c1, c2 with
  | CurrentWeather _ _, CurrentWeather _ _
  | Forecast _ _ _, Forecast _ _ _
  | SearchLocation _ _, SearchLocation _ _
  | ByCoordinates _ _ _, ByCoordinates _ _ _
  | AirQuality _ _, AirQuality _ _ => true
  | _, _ => false
  end.

(** A call of one of the five single-request tools. *)
Definition run_tool (env : Env) (c : ToolCall) (w : World) : PyResult json * World :=
  match c with
  | CurrentWeather location units => get_current_weather env location units w
  | Forecast location units days => get_forecast env location units days w
  | SearchLocation query limit => search_location env query limit w
  | ByCoordinates latitude longitude units =>
      get_weather_by_coordinates env latitude longitude units w
  | AirQuality latitude longitude => get_air_quality env latitude longitude w
  end.

(** A JSON object. *)
Definition is_object (j : json) : Prop :=
  match j with
  | JDict _ => True
  | _ => False
  end.

(** * server.py: the stdio server

    [WeatherMCPServer] keeps its own cache ([self.cache], with the same
    [_get_cache_key], [_get_cached] and [_set_cache] as tools/common.py) and
    its own request function, which raises where [make_weather_request]
    returns a failure dict. The state of a server object is a [World]:
    [_cache] stands for [self.cache]. *)

Module Server.

(** What the code takes from its libraries.
    - [raise_for_status status_code]: [None] when
      [response.raise_for_status()] returns, [Some msg] when it raises
      [httpx.HTTPStatusError] with [str(e) = msg].
    - [exception_text e]: [str(e)] for an exception raised by the
      interpreter.
    - [timeout_text]: [str(e)] for the [httpx.TimeoutException]. *)
Record Lib : Type := {
  raise_for_status : Z → option string;
  exception_text : exn → string;
  timeout_text : string
}.

Inductive Raised : Type :=
| Builtin (e : exn)
| HTTPStatusError (msg : string)
| Timeout
| Httpx (msg : string)
| Other (msg : string).

(** [str(e)] *)
Definition text (lib : Lib) (e : Raised) : string :=
  match e with
  | Builtin b => exception_text lib b
  | HTTPStatusError msg => msg
  | Timeout => timeout_text lib
  | Httpx msg => msg
  | Other msg => msg
  end.

Inductive Outcome (A : Type) : Type :=
| Returned (a : A)
| Raises (e : Raised).
Arguments Returned {A} a.
Arguments Raises {A} e.

Definition lift {A : Type} (r : PyResult A) : Outcome A :=
  match r with
  | Return a => Returned a
  | Raise e => Raises (Builtin e)
  end.

(** What a function returns: a dict it has just built, or a payload object
    of the heap. *)
Inductive value : Type :=
| Fresh (j : json)
| Stored (l : loc).

(** The object a value stands for. *)
Definition resolve (w : World) (v : value) : json :=
  match v with
  | Fresh j => j
  | Stored l => deref w l
  end.

Definition not_configured_dict : json :=
  JDict [("error", JStr "API key not configured");
         ("message", JStr "Please set OPENWEATHER_API_KEY environment variable");
         ("signup", JStr "Get free API key at https://openweathermap.org/api")].

(** The part of [_make_request] after [params["appid"] = self.api_key]. *)
Definition fetch (env : Env) (lib : Lib) (endpoint cache_key : string) (params : dict)
    (w : World) : Outcome value * World :=
  let '(outcome, dt) := upstream env (length (calls w)) endpoint params in
  let w1 := {| heap := heap w; _cache := _cache w; clock := (clock w + dt)%Q;
               calls := calls w ++ [(endpoint, params)] |} in
  match outcome with
  | Response status_code body =>
      match raise_for_status lib status_code with
      | Some msg => (Raises (HTTPStatusError msg), w1)
      | None =>
          match body with
          | inr j =>
              let l := fresh (dom (heap w1)) in
              (Returned (Stored l),
               with_cache (set_cache (clock w1) cache_key l (_cache w1))
                          (with_heap (<[l := j]> (heap w1)) w1))
          | inl msg => (Raises (Other msg), w1)
          end
      end
  | TimeoutException => (Raises Timeout, w1)
  | RequestError msg => (Raises (Httpx msg), w1)
  | OtherException msg => (Raises (Other msg), w1)
  end.

Definition _make_request (env : Env) (lib : Lib) (endpoint : string) (params : dict)
    (w : World) : Outcome value * World :=
  if negb (truthy (JStr (API_KEY env))) then (Returned (Fresh not_configured_dict), w)
  else
    let cache_key := get_cache_key endpoint params in
    let '(cached, c) := get_cached (clock w) cache_key (_cache w) in
    let w1 := with_cache c w in
    let miss := fetch env lib endpoint cache_key
                  (dict_set "appid" (JStr (API_KEY env)) params) w1 in
    match cached with
    | Some l =>
        if truthy (deref w1 l) then
          match deref w1 l with
          | JDict d =>
              (Returned (Stored l),
               with_heap (<[l := JDict (dict_set "_from_cache" (JBool true) d)]> (heap w1)) w1)
          | _ => (Raises (Builtin TypeError), w1)
          end
        else miss
    | None => miss
    end.

(** ["error" in data] *)
Definition contains_error (obj : json) : PyResult bool :=
  match obj with
  | JDict d => Return (bool_decide (is_Some (dict_lookup "error" d)))
  | JList xs =>
      Return (existsb (λ x, match x with JStr s => String.eqb s "error" | _ => false end) xs)
  | JStr s => Return (match String.index 0 "error" s with Some _ => true | None => false end)
  | _ => Raise TypeError
  end.

(** The dict [_get_current_weather] builds from a payload. *)
Definition current_weather_output (env : Env) (units : json) (d : json) : PyResult json :=
  name ← py_get d "name" JNull;
  country ← get2 d "sys" "country";
  lat ← get2 d "coord" "lat";
  lon ← get2 d "coord" "lon";
  temp ← get2 d "main" "temp";
  feels_like ← get2 d "main" "feels_like";
  temp_min ← get2 d "main" "temp_min";
  temp_max ← get2 d "main" "temp_max";
  pressure ← get2 d "main" "pressure";
  humidity ← get2 d "main" "humidity";
  description ← weather0 d "description";
  icon ← weather0 d "icon";
  speed ← get2 d "wind" "speed";
  deg ← get2 d "wind" "deg";
  clouds ← get2 d "clouds" "all";
  visibility ← py_get d "visibility" JNull;
  dt ← py_get d "dt" (JInt 0);
  ts ← fromtimestamp_isoformat env dt;
  sys ← py_get d "sys" (JDict []);
  sunrise ← py_get sys "sunrise" (JInt 0);
  sunrise_iso ← fromtimestamp_isoformat env sunrise;
  sys' ← py_get d "sys" (JDict []);
  sunset ← py_get sys' "sunset" (JInt 0);
  sunset_iso ← fromtimestamp_isoformat env sunset;
  Return (JDict [
    ("location", JDict [
       ("name", name);
       ("country", country);
       ("coordinates", JDict [("latitude", lat); ("longitude", lon)])]);
    ("current", JDict [
       ("temperature", temp);
       ("feels_like", feels_like);
       ("temp_min", temp_min);
       ("temp_max", temp_max);
       ("pressure", pressure);
       ("humidity", humidity);
       ("description", description);
       ("icon", icon);
       ("wind", JDict [("speed", speed); ("direction", deg)]);
       ("clouds", clouds);
       ("visibility", visibility)]);
    ("timestamp", JStr ts);
    ("sunrise", JStr sunrise_iso);
    ("sunset", JStr sunset_iso);
    ("units", units)]).

(** [_get_current_weather(args)]: the payload itself when it has an
    ["error"], the reshaped payload otherwise. *)
Definition _get_current_weather (env : Env) (lib : Lib) (args : json) (w : World)
  : Outcome value * World :=
  match args with
  | JDict a =>
      let location := default JNull (dict_lookup "location" a) in
      let units := default (JStr "metric") (dict_lookup "units" a) in
      let '(r, w1) := _make_request env lib (BASE_URL +:+ "/weather")
                        [("q", location); ("units", units)] w in
      match r with
      | Raises e => (Raises e, w1)
      | Returned v =>
          match contains_error (resolve w1 v) with
          | Raise e => (Raises (Builtin e), w1)
          | Return true => (Returned v, w1)
          | Return false =>
              (lift (out ← current_weather_output env units (resolve w1 v);
                     Return (Fresh out)), w1)
          end
      end
  | _ => (Raises (Builtin AttributeError), w)
  end.

(** The loop of [_compare_weather]: each location gets the answer of
    [_get_current_weather], or its own dict with the text of the exception. *)
Fixpoint compare_loop (env : Env) (lib : Lib) (units : json) (locations : list json)
    (w : World) : list value * World :=
  match locations with
  | [] => ([], w)
  | location :: rest =>
      let '(r, w1) :=
        _get_current_weather env lib (JDict [("location", location); ("units", units)]) w in
      let entry :=
        match r with
        | Returned weather => weather
        | Raises e => Fresh (JDict [("location", location); ("error", JStr (text lib e))])
        end in
      let '(more, w2) := compare_loop env lib units rest w1 in
      (entry :: more, w2)
  end.

(** [_compare_weather(args)]. The entries are given as they are when the
    result is serialized, after the loop. *)
Definition _compare_weather (env : Env) (lib : Lib) (args : json) (w : World)
  : Outcome json * World :=
  match args with
  | JDict a =>
      let locations := default (JList []) (dict_lookup "locations" a) in
      let units := default (JStr "metric") (dict_lookup "units" a) in
      match py_iter locations with
      | Raise e => (Raises (Builtin e), w)
      | Return xs =>
          let '(comparisons, w') := compare_loop env lib units xs w in
          (Returned (JDict [
             ("locations", JList (map (resolve w') comparisons));
             ("units", units);
             ("comparison_time", JStr (now_isoformat env (clock w')))]), w')
      end
  | _ => (Raises (Builtin AttributeError), w)
  end.

(** [_get_weather_alerts(args)] *)
Definition _get_weather_alerts (args : json) : json :=
  JDict [("message",
          JStr "Weather alerts require OpenWeatherMap One Call API 3.0 (paid tier)");
         ("alternative", JStr "Use get_current_weather to check current conditions");
         ("free_tier_note", JStr "Free tier does not include severe weather alerts")].

End Server.

(** The httpx of the tests: a status from 400 to 599 raises. *)
Definition lib_raising : Server.Lib :=
  {| Server.raise_for_status := λ status_code,
       if (400 <=? status_code) && (status_code <? 600)
       then Some ("HTTP error " +:+ str_of_int status_code) else None;
     Server.exception_text := λ _, "error";
     Server.timeout_text := "timed out" |}.

(** ** Texts of numbers *)

(** Every character of the text passes the test. *)
Fixpoint all_chars (P : ascii → bool) (s : string) : bool :=
  match s with
  | EmptyString => true
  | String a s' => P a && all_chars P s'
  end.

Definition is_int_char (a : ascii) : bool :=
  let n := N_of_ascii a in ((48 <=? n) && (n <=? 57) || (n =? 45))%N.

(** The characters of the [repr] of a float: digits, [.], [e], [+], [-], and
    the letters of [nan] and [inf]. *)
Definition is_float_char (a : ascii) : bool :=
  let n := N_of_ascii a in
  ((48 <=? n) && (n <=? 57) || (n =? 45) || (n =? 43) || (n =? 46) || (n =? 101)
   || (n =? 110) || (n =? 97) || (n =? 105) || (n =? 102))%N.

(** [int(s)] for the text of an int. *)
Definition int_of_str (s : string) : option Z :=
  option_map Z.of_int (NilZero.int_of_string s).

(** An item of a forecast that [get_forecast] can reshape: an object whose
    ["main"], ["wind"] and ["clouds"] are missing or objects, whose
    ["weather"] is missing or a list that begins with an object, and whose
    ["dt"] is accepted by [datetime.fromtimestamp]. *)
Definition forecast_item_ok (env : Env) (item : json) : Prop :=
  match item with
  | JDict it =>
      time_readable env "dt" it ∧ object_or_absent "main" it ∧ weather_readable it
      ∧ object_or_absent "wind" it ∧ object_or_absent "clouds" it
  | _ => False
  end.

(** The canned forecast of tests/test_server.py. *)
Definition mock_forecast_response : json :=
  JDict [
    ("city", JDict [("name", JStr "Paris"); ("country", JStr "FR");
                    ("coord", JDict [("lat", JFloat "48.8566"); ("lon", JFloat "2.3522")])]);
    ("list", JList [
       JDict [("dt", JInt 1697450000);
              ("main", JDict [("temp", JFloat "18.5"); ("feels_like", JFloat "17.8");
                              ("temp_min", JFloat "17.0"); ("temp_max", JFloat "19.0");
                              ("pressure", JInt 1015); ("humidity", JInt 65)]);
              ("weather", JList [JDict [("description", JStr "clear sky");
                                        ("icon", JStr "01d")]]);
              ("wind", JDict [("speed", JFloat "3.5")]);
              ("clouds", JDict [("all", JInt 10)]);
              ("pop", JFloat "0.0")]])].


(** * Texts of any code point

    The model above keeps a [str] in one byte per character. The cache key
    is spelled out here once more for the flat parameter dicts the tools
    pass, with texts of arbitrary code points, as
    [json.dumps(params, sort_keys=True)] (with its default
    [ensure_ascii=True]) writes them. *)

Module Unicode.

(** A Python [str]: its code points. *)
Definition text : Type := list N.

(** The text of the model's one-byte strings. *)
Definition of_string (s : string) : text := map N_of_ascii (list_ascii_of_string s).

(** [{0:04x}] for a number below 65536. *)
Definition hex4 (n : N) : string :=
  String (Json.hex_digit (n / 4096))
    (String (Json.hex_digit (n / 256 mod 16))
       (String (Json.hex_digit (n / 16 mod 16))
          (String (Json.hex_digit (n mod 16)) EmptyString))).

(** One character of [py_encode_basestring_ascii]: the short escapes, the
    printable ASCII range as it is, a [\u] escape for the rest of the basic
    plane, and a pair of surrogate escapes above it. *)
Definition escape_code_point (n : N) : string :=
  if (n =? 34)%N then String backslash (String dquote EmptyString)
  else if (n =? 92)%N then String backslash (String backslash EmptyString)
  else if (n =? 10)%N then String backslash "n"
  else if (n =? 13)%N then String backslash "r"
  else if (n =? 9)%N then String backslash "t"
  else if (n =? 8)%N then String backslash "b"
  else if (n =? 12)%N then String backslash "f"
  else if ((32 <=? n) && (n <=? 126))%N then String (ascii_of_N n) EmptyString
  else if (n <? 65536)%N then String backslash (String "u" (hex4 n))
  else
    let v := (n - 65536)%N in
    let s1 := N.lor 55296 (N.land (N.shiftr v 10) 1023) in
    let s2 := N.lor 56320 (N.land v 1023) in
    String backslash (String "u" (hex4 s1)) +:+ String backslash (String "u" (hex4 s2)).

Fixpoint escape_text (s : text) : string :=
  match s with
  | [] => EmptyString
  | n :: s' => escape_code_point n +:+ escape_text s'
  end.

(** The values the tools put in their parameters. *)
Inductive value : Type :=
| VStr (s : text)
| VInt (n : Z)
| VFloat (repr : string).

Definition dumps_value (v : value) : string :=
  match v with
  | VStr s => Json.quoted (escape_text s)
  | VInt n => str_of_int n
  | VFloat r => Json.floatstr r
  end.

(** [f"{endpoint}:{json.dumps(params, sort_keys=True)}"] *)
Definition get_cache_key (endpoint : string) (params : list (string * value)) : string :=
  endpoint +:+ ":" +:+ "{"
  +:+ Json.join ", "
        (map Json.render_item
           (Json.sorted_items (map (λ kv, let '(k, v) := kv in (k, dumps_value v)) params)))
  +:+ "}".

(** The calls of the five single-request tools and their requests. *)
Inductive ToolCall : Type :=
| CurrentWeather (location units : text)
| Forecast (location units : text) (days : Z)
| SearchLocation (query : text) (limit : Z)
| ByCoordinates (latitude longitude : string) (units : text)
| AirQuality (latitude longitude : string).

Definition request_of (c : ToolCall) : string * list (string * value) :=
  match c with
  | CurrentWeather location units =>
      (BASE_URL +:+ "/weather", [("q", VStr location); ("units", VStr units)])
  | Forecast location units days =>
      (BASE_URL +:+ "/forecast",
       [("q", VStr location); ("units", VStr units); ("cnt", VInt (Z.min days 5 * 8))])
  | SearchLocation query limit =>
      (GEO_URL +:+ "/direct", [("q", VStr query); ("limit", VInt (Z.min limit 10))])
  | ByCoordinates latitude longitude units =>
      (BASE_URL +:+ "/weather",
       [("lat", VFloat latitude); ("lon", VFloat longitude); ("units", VStr units)])
  | AirQuality latitude longitude =>
      (BASE_URL +:+ "/air_pollution", [("lat", VFloat latitude); ("lon", VFloat longitude)])
  end.

Definition key_of (c : ToolCall) : string :=
  get_cache_key (request_of c).1 (request_of c).2.

(** A code point of a text without lone surrogates: below 0x110000 and
    outside 0xD800..0xDFFF. *)
Definition code_point_ok (n : N) : Prop :=
  (n < 1114112)%N ∧ ((n < 55296)%N ∨ (57343 < n)%N).

Definition text_ok (s : text) : Prop := Forall code_point_ok s.

(** The texts of a call have no lone surrogates and its floats are texts
    [repr] can produce. *)
Definition arguments_ok (c : ToolCall) : Prop :=
  match c with
  | CurrentWeather location units | Forecast location units _ =>
      text_ok location ∧ text_ok units
  | SearchLocation query _ => text_ok query
  | ByCoordinates latitude longitude units =>
      all_chars is_float_char latitude = true ∧ all_chars is_float_char longitude = true
      ∧ text_ok units
  | AirQuality latitude longitude =>
      all_chars is_float_char latitude = true ∧ all_chars is_float_char longitude = true
  end.

(** Reading escaped characters back: the inverse of [escape_code_point],
    used to tell cache keys apart. It is not part of the program. *)

Definition hex_value (c : ascii) : option N :=
  let n := N_of_ascii c in
  if ((48 <=? n) && (n <=? 57))%N then Some (n - 48)%N
  else if ((97 <=? n) && (n <=? 102))%N then Some (n - 87)%N
  else None.

Definition read_hex4 (s : string) : option (N * string) :=
  match s with
  | String a (String b (String c (String d r))) =>
      match hex_value a, hex_value b, hex_value c, hex_value d with
      | Some x3, Some x2, Some x1, Some x0 => Some (4096 * x3 + 256 * x2 + 16 * x1 + x0, r)%N
      | _, _, _, _ => None
      end
  | _ => None
  end.

Definition unescape_code_point (s : string) : option (N * string) :=
  match s with
  | EmptyString => None
  | String c r =>
      if (N_of_ascii c =? 92)%N then
        match r with
        | String e r' =>
            let n := N_of_ascii e in
            if (n =? 34)%N then Some (34, r')%N
            else if (n =? 92)%N then Some (92, r')%N
            else if (n =? 110)%N then Some (10, r')%N
            else if (n =? 114)%N then Some (13, r')%N
            else if (n =? 116)%N then Some (9, r')%N
            else if (n =? 98)%N then Some (8, r')%N
            else if (n =? 102)%N then Some (12, r')%N
            else if (n =? 117)%N then
              match read_hex4 r' with
              | Some (h, r'') =>
                  if ((55296 <=? h) && (h <=? 56319))%N then
                    match r'' with
                    | String b (String u r3) =>
                        if ((N_of_ascii b =? 92) && (N_of_ascii u =? 117))%N then
                          match read_hex4 r3 with
                          | Some (l, r4) =>
                              Some (65536 + (h - 55296) * 1024 + (l - 56320), r4)%N
                          | None => None
                          end
                        else None
                    | _ => None
                    end
                  else Some (h, r'')
              | None => None
              end
            else None
        | EmptyString => None
        end
      else if (N_of_ascii c =? 34)%N then None
      else Some (N_of_ascii c, r)
  end.

End Unicode.

(** The call of the one-byte model as a call with texts. *)
Definition of_call (c : ToolCall) : Unicode.ToolCall :=
  match c with
  | CurrentWeather location units =>
      Unicode.CurrentWeather (Unicode.of_string location) (Unicode.of_string units)
  | Forecast location units days =>
      Unicode.Forecast (Unicode.of_string location) (Unicode.of_string units) days
  | SearchLocation query limit => Unicode.SearchLocation (Unicode.of_string query) limit
  | ByCoordinates latitude longitude units =>
      Unicode.ByCoordinates latitude longitude (Unicode.of_string units)
  | AirQuality latitude longitude => Unicode.AirQuality latitude longitude
  end.

(** * Properties *)

(** ** Key derivation *)

Example get_cache_key_london :
  get_cache_key "https://api.openweathermap.org/data/2.5/weather"
                [("units", JStr "metric"); ("q", JStr "London,UK")]
  = "https://api.openweathermap.org/data/2.5/weather:{"
    +:+ Json.quoted "q" +:+ ": " +:+ Json.quoted "London,UK" +:+ ", "
    +:+ Json.quoted "units" +:+ ": " +:+ Json.quoted "metric" +:+ "}".
Proof. reflexivity. Qed.

Example get_cache_key_forecast :
  get_cache_key "f" [("q", JStr "Paris,FR"); ("units", JStr "metric"); ("cnt", JInt 24)]
  = "f:{" +:+ Json.quoted "cnt" +:+ ": 24, " +:+ Json.quoted "q" +:+ ": "
    +:+ Json.quoted "Paris,FR" +:+ ", " +:+ Json.quoted "units" +:+ ": "
    +:+ Json.quoted "metric" +:+ "}".
Proof. reflexivity. Qed.

Example dumps_nested :
  Json.dumps (JDict [("lon", JFloat "-0.1278"); ("lat", JFloat "51.5074");
                     ("tags", JList [JNull; JBool true; JDict [("b", JInt (-3)); ("a", JInt 0)]])])
  = "{" +:+ Json.quoted "lat" +:+ ": 51.5074, " +:+ Json.quoted "lon" +:+ ": -0.1278, "
    +:+ Json.quoted "tags" +:+ ": [null, true, {" +:+ Json.quoted "a" +:+ ": 0, "
    +:+ Json.quoted "b" +:+ ": -3}]}".
Proof. reflexivity. Qed.

Example dumps_escapes :
  Json.dumps (JStr (String (ascii_of_N 233) (String (ascii_of_N 10) (String dquote "a"))))
  = Json.quoted (String backslash "u00e9" +:+ String backslash "n"
                 +:+ String backslash (String dquote "a")).
Proof. reflexivity. Qed.

Section SortFacts.
Context {A : Type}.
Implicit Types (x y : string * A) (l : list (string * A)).

Lemma leb_flip (a b : string) : String.leb a b = false → String.leb b a = true.
Proof. destruct (String.leb_total a b); congruence. Qed.

Lemma leb_trans (a b c : string) :
  String.leb a b = true → String.leb b c = true → String.leb a c = true.
Proof.
  intros Hab Hbc. apply Is_true_true.
  change (String.le a c). transitivity b; apply Is_true_true; assumption.
Qed.

(** Two items with different keys can be inserted in either order. *)
Lemma insert_item_comm x y l :
  x.1 ≠ y.1 → Json.insert_item x (Json.insert_item y l) = Json.insert_item y (Json.insert_item x l).
Proof.
  intros Hxy. induction l as [|z l IH]; simpl.
  - destruct (String.leb x.1 y.1) eqn:Exy, (String.leb y.1 x.1) eqn:Eyx; try reflexivity.
    + destruct Hxy. by apply String.leb_antisym.
    + apply leb_flip in Exy. congruence.
  - destruct (String.leb y.1 z.1) eqn:Eyz, (String.leb x.1 z.1) eqn:Exz; simpl;
      rewrite ?Eyz, ?Exz;
      destruct (String.leb x.1 y.1) eqn:Exy, (String.leb y.1 x.1) eqn:Eyx;
      try reflexivity; try (f_equal; exact IH);
      try (destruct Hxy; by apply String.leb_antisym);
      try (apply leb_flip in Exy; congruence).
    + pose proof (leb_trans _ _ _ Exy Eyz). congruence.
    + pose proof (leb_trans _ _ _ Eyx Exz). congruence.
Qed.

Lemma insert_item_perm x l : Json.insert_item x l ≡ₚ x :: l.
Proof.
  induction l as [|z l IH]; simpl; [done|].
  destruct (String.leb x.1 z.1); [done|]. rewrite IH. apply perm_swap.
Qed.

Lemma sorted_items_perm l : Json.sorted_items l ≡ₚ l.
Proof.
  induction l as [|x l IH]; simpl; [done|]. by rewrite insert_item_perm, IH.
Qed.

(** The sorted list of items depends on the set of items only, not on the
    order they come in, as long as no key occurs twice. *)
Lemma sorted_items_unique l1 l2 :
  NoDup l1.*1 → l1 ≡ₚ l2 → Json.sorted_items l1 = Json.sorted_items l2.
Proof.
  intros Hnd Hp. induction Hp as [|x l l' Hp IH|x y l|l l' l'' Hp1 IH1 Hp2 IH2]; simpl.
  - reflexivity.
  - rewrite fmap_cons in Hnd. apply NoDup_cons in Hnd as [_ Hnd]. by rewrite IH.
  - apply insert_item_comm.
    rewrite !fmap_cons in Hnd. apply NoDup_cons in Hnd as [Hnot _].
    intros Heq. apply Hnot. rewrite Heq. left.
  - rewrite IH1 by assumption. apply IH2. by rewrite <- Hp1.
Qed.

Lemma insert_item_sorted x l :
  Sorted key_le l → Sorted key_le (Json.insert_item x l).
Proof.
  induction 1 as [|z l Hs IH Hhd]; simpl.
  - repeat constructor.
  - destruct (String.leb x.1 z.1) eqn:E.
    + constructor; [by constructor|]. by constructor.
    + constructor; [exact IH|].
      destruct Hhd as [|w l Hzw]; simpl.
      * constructor. by apply leb_flip.
      * destruct (String.leb x.1 w.1); constructor; [by apply leb_flip | exact Hzw].
Qed.

Lemma sorted_items_sorted l : Sorted key_le (Json.sorted_items l).
Proof.
  induction l as [|x l IH]; simpl; [constructor | by apply insert_item_sorted].
Qed.
End SortFacts.

Lemma get_cache_key_unfold endpoint params :
  get_cache_key endpoint params
  = endpoint +:+ ":" +:+ "{" +:+ Json.join ", " (map Json.render_item (serialized_items params)) +:+ "}".
Proof. reflexivity. Qed.

Lemma rendered_keys (params : dict) :
  (map (λ kv : string * json, let '(k, v) := kv in (k, Json.dumps v)) params).*1 = params.*1.
Proof. induction params as [|[k v] p IH]; [done | simpl; f_equal; exact IH]. Qed.

(** Sorting the items and rendering their values can be done in either
    order. *)
Lemma insert_item_rendered (x : string * json) (l : list (string * json)) :
  Json.insert_item (x.1, Json.dumps x.2)
    (map (λ kv : string * json, let '(k, v) := kv in (k, Json.dumps v)) l)
  = map (λ kv : string * json, let '(k, v) := kv in (k, Json.dumps v)) (Json.insert_item x l).
Proof.
  induction l as [|[k v] l IH]; simpl; [by destruct x|].
  destruct (String.leb x.1 k); simpl; [by destruct x|]. by rewrite IH.
Qed.

Lemma sorted_items_rendered (l : list (string * json)) :
  Json.sorted_items (map (λ kv : string * json, let '(k, v) := kv in (k, Json.dumps v)) l)
  = map (λ kv : string * json, let '(k, v) := kv in (k, Json.dumps v)) (Json.sorted_items l).
Proof.
  induction l as [|[k v] l IH]; simpl; [done|].
  rewrite IH. apply (insert_item_rendered (k, v)).
Qed.

(** C1. The cache key does not depend on the order in which the parameters
    were put in the dict: two dicts that hold the same key/value pairs in
    different orders get the same key. The key is the endpoint, a colon, and
    the parameters serialized between braces in ascending order of their
    keys: each item as its quoted key, a colon and its value, the items
    separated by commas. *)
Theorem get_cache_key_order_independent (endpoint : string) (p1 p2 : dict) :
  dict_wf p1 → p1 ≡ₚ p2 →
  get_cache_key endpoint p1 = get_cache_key endpoint p2
  ∧ ∃ items : list (string * json),
      items ≡ₚ p1
      ∧ Sorted key_le items
      ∧ get_cache_key endpoint p1
        = endpoint +:+ ":" +:+ "{"
          +:+ Json.join ", "
                (map (λ kv : string * json,
                        Json.encode_basestring_ascii kv.1 +:+ ": " +:+ Json.dumps kv.2) items)
          +:+ "}"
      ∧ get_cache_key endpoint p2
        = endpoint +:+ ":" +:+ "{"
          +:+ Json.join ", "
                (map (λ kv : string * json,
                        Json.encode_basestring_ascii kv.1 +:+ ": " +:+ Json.dumps kv.2) items)
          +:+ "}".
Proof.
  intros Hwf Hp.
  assert (Hkey : get_cache_key endpoint p1 = get_cache_key endpoint p2).
  { rewrite !get_cache_key_unfold. unfold serialized_items.
    rewrite (sorted_items_unique _ (map (λ kv : string * json,
               let '(k, v) := kv in (k, Json.dumps v)) p2)); [done| |].
    - rewrite rendered_keys. exact Hwf.
    - by apply Permutation_map. }
  split; [exact Hkey|].
  exists (Json.sorted_items p1).
  split; [apply sorted_items_perm|]. split; [apply sorted_items_sorted|].
  assert (Hform : get_cache_key endpoint p1
                  = endpoint +:+ ":" +:+ "{"
                    +:+ Json.join ", "
                          (map (λ kv : string * json,
                                  Json.encode_basestring_ascii kv.1 +:+ ": " +:+ Json.dumps kv.2)
                             (Json.sorted_items p1))
                    +:+ "}").
  { rewrite get_cache_key_unfold. unfold serialized_items.
    rewrite sorted_items_rendered, map_map. do 3 f_equal.
    f_equal. f_equal. apply map_ext. by intros [k v]. }
  split; [exact Hform|]. by rewrite <- Hkey.
Qed.

Lemma get_cache_key_order_independent_witness :
  get_cache_key "https://api.openweathermap.org/data/2.5/weather"
    [("q", JStr "London,UK"); ("units", JStr "metric")]
  = get_cache_key "https://api.openweathermap.org/data/2.5/weather"
    [("units", JStr "metric"); ("q", JStr "London,UK")].
Proof.
  refine (proj1 (get_cache_key_order_independent _ _ _ _ _)).
  - unfold dict_wf. simpl. apply NoDup_cons. split.
    + intros H. apply list_elem_of_singleton in H. discriminate H.
    + apply NoDup_singleton.
  - apply perm_swap.
Defined.

(** ** The cache *)

Lemma Qltb_lt (x y : Q) : Qltb x y = true ↔ (x < y)%Q.
Proof.
  unfold Qltb. rewrite negb_true_iff, <- not_true_iff_false, Qle_bool_iff.
  split; [apply Qnot_le_lt | apply Qlt_not_le].
Qed.

Lemma Qltb_ge (x y : Q) : Qltb x y = false ↔ (y <= x)%Q.
Proof. unfold Qltb. by rewrite negb_false_iff, Qle_bool_iff. Qed.

Lemma get_cached_absent now key (cache : gmap string CacheEntry) :
  cache !! key = None → get_cached now key cache = (None, cache).
Proof. intros H. unfold get_cached. by rewrite H. Qed.

Lemma get_cached_fresh now key (cache : gmap string CacheEntry) e :
  cache !! key = Some e → (now - timestamp e < CACHE_TTL)%Q →
  get_cached now key cache = (Some (data e), cache).
Proof.
  intros H Hf. unfold get_cached. rewrite H.
  apply Qltb_lt in Hf. by rewrite Hf.
Qed.

Lemma get_cached_stale now key (cache : gmap string CacheEntry) e :
  cache !! key = Some e → (CACHE_TTL <= now - timestamp e)%Q →
  get_cached now key cache = (None, delete key cache).
Proof.
  intros H Hs. unfold get_cached. rewrite H.
  apply Qltb_ge in Hs. by rewrite Hs.
Qed.

(** A read never adds or changes an entry, and touches no other key. *)
Lemma get_cached_shrinks now key (cache : gmap string CacheEntry) :
  (get_cached now key cache).2 ⊆ cache
  ∧ ∀ k, k ≠ key → (get_cached now key cache).2 !! k = cache !! k.
Proof.
  unfold get_cached. destruct (cache !! key) as [e|] eqn:E; [|done].
  destruct (Qltb _ _); simpl; [done|]. split.
  - apply delete_subseteq.
  - intros k Hk. by apply lookup_delete_ne.
Qed.

(** C3. A read of an entry that is [CACHE_TTL] seconds old or older returns
    nothing and deletes the entry; a read of the same key right after, or at
    any later time, finds no entry and returns nothing again. No other key is
    touched. *)
Theorem get_cached_lazy_expiry (now : Q) (k : string)
    (cache : gmap string CacheEntry) (e : CacheEntry) :
  cache !! k = Some e →
  (CACHE_TTL <= now - timestamp e)%Q →
  get_cached now k cache = (None, delete k cache)
  ∧ delete k cache !! k = None
  ∧ (∀ k', k' ≠ k → delete k cache !! k' = cache !! k')
  ∧ ∀ now', get_cached now' k (delete k cache) = (None, delete k cache).
Proof.
  intros Hk Hstale. repeat split.
  - by apply (get_cached_stale now k cache e).
  - apply lookup_delete_eq.
  - intros k' Hne. by apply lookup_delete_ne.
  - intros now'. apply get_cached_absent, lookup_delete_eq.
Qed.

Lemma get_cached_lazy_expiry_witness :
  get_cached 600 "k" {[ "k" := {| data := 1%positive; timestamp := 0 |} ]}
  = (None, delete "k" {[ "k" := {| data := 1%positive; timestamp := 0 |} ]}).
Proof.
  refine (proj1 (get_cached_lazy_expiry 600 "k" _ {| data := 1%positive; timestamp := 0 |} _ _)).
  - apply lookup_singleton_eq.
  - apply Qltb_ge. reflexivity.
Defined.

(** C4. [set_cache] stores the payload under the key with the time of the
    store, whatever the cache held under that key, and leaves the other keys
    alone; a read made less than [CACHE_TTL] seconds after the store returns
    that very payload and keeps the entry. *)
Theorem set_cache_get_cached (t_put t_get : Q) (k : string) (v : loc)
    (cache : gmap string CacheEntry) :
  (t_get - t_put < CACHE_TTL)%Q →
  set_cache t_put k v cache !! k = Some {| data := v; timestamp := t_put |}
  ∧ (∀ k', k' ≠ k → set_cache t_put k v cache !! k' = cache !! k')
  ∧ get_cached t_get k (set_cache t_put k v cache) = (Some v, set_cache t_put k v cache).
Proof.
  intros Hfresh. unfold set_cache. split; [|split].
  - apply lookup_insert_eq.
  - intros k' Hne. by apply lookup_insert_ne.
  - apply (get_cached_fresh t_get k _ {| data := v; timestamp := t_put |});
      [apply lookup_insert_eq | exact Hfresh].
Qed.

Lemma set_cache_get_cached_witness :
  get_cached 1599 "k" (set_cache 1000 "k" 2%positive
                         {[ "k" := {| data := 1%positive; timestamp := 0 |} ]})
  = (Some 2%positive,
     set_cache 1000 "k" 2%positive {[ "k" := {| data := 1%positive; timestamp := 0 |} ]}).
Proof.
  refine (proj2 (proj2 (set_cache_get_cached 1000 1599 "k" 2%positive _ _))).
  apply Qltb_lt. reflexivity.
Defined.

(** ** The dispatcher *)

Section Dispatcher.
Context (env : Env) (endpoint : string) (params : dict) (w : World).

Lemma api_key_truthy : API_KEY env ≠ EmptyString → truthy (JStr (API_KEY env)) = true.
Proof. intros H. simpl. by destruct (String.eqb_spec (API_KEY env) EmptyString). Qed.

Lemma with_cache_same : with_cache (_cache w) w = w.
Proof. by destruct w. Qed.

(** Without a key the request returns at once and nothing changes. *)
Lemma make_weather_request_unconfigured :
  API_KEY env = EmptyString →
  make_weather_request env endpoint params w
  = (Return (Failure
       "API key not configured. Please set OPENWEATHER_API_KEY environment variable." None), w).
Proof. intros H. unfold make_weather_request. by rewrite H. Qed.

(** With a key and no hit, the request is the upstream fetch. *)
Lemma make_weather_request_miss :
  API_KEY env ≠ EmptyString → cache_hit endpoint params w = false →
  make_weather_request env endpoint params w
  = fetch env endpoint (get_cache_key endpoint params) (sent_params env params)
      (with_cache (cache_after_lookup endpoint params w) w).
Proof.
  intros Hk Hmiss. unfold make_weather_request, cache_hit, cache_after_lookup in *.
  rewrite api_key_truthy by done. simpl.
  destruct (get_cached _ _ _) as [[l|] c]; simpl in *; [|done].
  change (deref (with_cache c w) l) with (deref w l). by rewrite Hmiss.
Qed.

(** With a key and a hit on a dict, the dict is marked where it is stored. *)
Lemma make_weather_request_hit (l : loc) (d : dict) :
  API_KEY env ≠ EmptyString →
  (get_cached (clock w) (get_cache_key endpoint params) (_cache w)).1 = Some l →
  heap w !! l = Some (JDict d) → d ≠ [] →
  make_weather_request env endpoint params w
  = (Return (Success l),
     with_heap (<[l := JDict (dict_set "_from_cache" (JBool true) d)]> (heap w)) w).
Proof.
  intros Hk Hl Hd Hne. unfold make_weather_request.
  rewrite api_key_truthy by done. simpl.
  unfold get_cached in *. destruct (_cache w !! _) as [e|]; [|done].
  destruct (Qltb _ _); simpl in *; [|done]. injection Hl as ->.
  unfold deref. simpl. rewrite Hd. simpl.
  destruct d; [done|]. by rewrite with_cache_same.
Qed.

(** With a key and a hit on anything but a dict, the item assignment raises. *)
Lemma make_weather_request_hit_raises (l : loc) :
  API_KEY env ≠ EmptyString →
  (get_cached (clock w) (get_cache_key endpoint params) (_cache w)).1 = Some l →
  truthy (deref w l) = true → (∀ d, deref w l ≠ JDict d) →
  (make_weather_request env endpoint params w).1 = Raise TypeError.
Proof.
  intros Hk Hl Ht Hnd. unfold make_weather_request.
  rewrite api_key_truthy by done. simpl.
  destruct (get_cached _ _ _) as [cached c]. simpl in Hl. subst cached.
  change (deref (with_cache c w) l) with (deref w l). rewrite Ht.
  destruct (deref w l); try done. by destruct (Hnd items).
Qed.

End Dispatcher.

Section Fetch.
Context (env : Env) (endpoint cache_key : string) (params : dict) (w : World).

Ltac fetch_cases :=
  unfold fetch; destruct (upstream env _ endpoint params) as [[sc [msg|j]| |msg|msg] dt];
  repeat (match goal with |- context [if ?b then _ else _] => destruct b eqn:? end).

(** The fetch sends exactly one request. *)
Lemma fetch_calls :
  calls (fetch env endpoint cache_key params w).2 = (calls w ++ [(endpoint, params)])%list.
Proof. fetch_cases; reflexivity. Qed.

(** The fetch never raises. *)
Lemma fetch_returns : ∃ r, (fetch env endpoint cache_key params w).1 = Return r.
Proof. fetch_cases; eauto. Qed.

(** A fetch that fails leaves the heap and the cache as they were. *)
Lemma fetch_failure :
  is_success (upstream env (length (calls w)) endpoint params).1 = false →
  ∃ error status_code,
    (fetch env endpoint cache_key params w).1 = Return (Failure error status_code)
    ∧ error ≠ EmptyString
    ∧ heap (fetch env endpoint cache_key params w).2 = heap w
    ∧ _cache (fetch env endpoint cache_key params w).2 = _cache w.
Proof.
  unfold fetch. destruct (upstream env _ endpoint params) as [[sc [msg|j]| |msg|msg] dt];
    simpl; intros Hf;
    repeat (match goal with |- context [if ?b then _ else _] => destruct b eqn:? end);
    try discriminate Hf; do 2 eexists; (split; [reflexivity|]); (split; [discriminate|]); done.
Qed.

End Fetch.

(** ** Dicts *)

Lemma dict_lookup_set_eq (k : string) (v : json) (d : dict) :
  dict_lookup k (dict_set k v d) = Some v.
Proof.
  induction d as [|[k' v'] d IH]; simpl.
  - by rewrite decide_True.
  - destruct (decide (k' = k)) as [->|Hne]; simpl.
    + by rewrite decide_True.
    + by rewrite decide_False.
Qed.

Lemma dict_lookup_set_ne (k k0 : string) (v : json) (d : dict) :
  k0 ≠ k → dict_lookup k0 (dict_set k v d) = dict_lookup k0 d.
Proof.
  intros Hne. induction d as [|[k' v'] d IH]; simpl.
  - by rewrite decide_False.
  - destruct (decide (k' = k)) as [->|Hk]; simpl.
    + by rewrite !decide_False.
    + destruct (decide (k' = k0)); [done | exact IH].
Qed.

(** ** Upstream calls *)

(** C2, as the code has it. Without an API key no request goes upstream.
    With one: a request whose key has a fresh entry holding a non-empty JSON
    object sends nothing upstream and returns success with the stored object,
    which now carries [_from_cache: True]; a request whose key has no entry,
    or a stale one, sends exactly one request upstream. *)
Theorem make_weather_request_upstream_calls
    (env : Env) (endpoint : string) (params : dict) (w : World) :
  let key := get_cache_key endpoint params in
  let out := make_weather_request env endpoint params w in
  (API_KEY env = EmptyString → calls out.2 = calls w)
  ∧ (API_KEY env ≠ EmptyString →
     (∀ e d, _cache w !! key = Some e → (clock w - timestamp e < CACHE_TTL)%Q →
        heap w !! data e = Some (JDict d) → d ≠ [] →
        out.1 = Return (Success (data e))
        ∧ calls out.2 = calls w
        ∧ marked out.2 (data e))
     ∧ ((_cache w !! key = None
         ∨ ∃ e, _cache w !! key = Some e ∧ (CACHE_TTL <= clock w - timestamp e)%Q) →
        calls out.2 = (calls w ++ [(endpoint, sent_params env params)])%list)).
Proof.
  intros key out. split; [|intros Hk; split].
  - intros Hk. unfold out. by rewrite make_weather_request_unconfigured.
  - intros e d He Hfresh Hd Hne. unfold out.
    rewrite (make_weather_request_hit env endpoint params w (data e) d); try done.
    + simpl. repeat split; [].
      exists (dict_set "_from_cache" (JBool true) d). split.
      * apply lookup_insert_eq.
      * apply dict_lookup_set_eq.
    + by rewrite (get_cached_fresh _ _ _ e).
  - intros Habs. unfold out. rewrite make_weather_request_miss; [|done|].
    + by rewrite fetch_calls.
    + unfold cache_hit. destruct Habs as [Hnone|(e & He & Hstale)].
      * by rewrite get_cached_absent.
      * by rewrite (get_cached_stale _ _ _ e).
Qed.

Lemma make_weather_request_upstream_calls_witness :
  let out := make_weather_request (env_with test_api_key TimeoutException)
               (BASE_URL +:+ "/weather") london_params (london_world 1697449900 1697450000) in
  out.1 = Return (Success 1%positive) ∧ calls out.2 = [] ∧ marked out.2 1%positive.
Proof.
  refine (proj1 (proj2 (make_weather_request_upstream_calls
            (env_with test_api_key TimeoutException) (BASE_URL +:+ "/weather") london_params
            (london_world 1697449900 1697450000)) _)
          {| data := 1%positive; timestamp := 1697449900 |} _ _ _ _ _).
  - discriminate.
  - apply lookup_singleton_eq.
  - apply Qltb_lt. reflexivity.
  - apply lookup_singleton_eq.
  - discriminate.
Defined.

(** The claim as written fails without an API key: the key of the request
    has no entry, and no request goes upstream. *)
Lemma make_weather_request_absent_without_call :
  let out := make_weather_request (env_with EmptyString TimeoutException)
               (BASE_URL +:+ "/weather") london_params empty_world in
  _cache empty_world !! london_key = None
  ∧ length (calls out.2) = 0%nat
  ∧ length (calls out.2) ≠ S (length (calls empty_world)).
Proof. repeat split. discriminate. Qed.

(** A fresh entry whose payload is an empty list (a search without matches)
    is fetched again, and one whose payload is a non-empty list makes the
    item assignment raise. *)
Example fresh_empty_list_is_fetched_again :
  let w := {| heap := {[ 1%positive := JList [] ]};
              _cache := {[ london_key := {| data := 1%positive; timestamp := 1697449900 |} ]};
              clock := 1697450000; calls := [] |} in
  length (calls (make_weather_request (env_with test_api_key TimeoutException)
                   (BASE_URL +:+ "/weather") london_params w).2) = 1%nat.
Proof. vm_compute. reflexivity. Qed.

Example fresh_list_raises :
  let w := {| heap := {[ 1%positive := JList [JDict [("name", JStr "Springfield")]] ]};
              _cache := {[ london_key := {| data := 1%positive; timestamp := 1697449900 |} ]};
              clock := 1697450000; calls := [] |} in
  (make_weather_request (env_with test_api_key TimeoutException)
     (BASE_URL +:+ "/weather") london_params w).1 = Raise TypeError.
Proof. vm_compute. reflexivity. Qed.

(** The scenario of the specification: the first call goes upstream, the
    second one, with the same arguments and within the TTL window, does not,
    and returns the stored object with the marker. *)
Example second_call_served_from_cache :
  let env := env_with test_api_key (Response 200 (inr mock_weather_response)) in
  let out1 := make_weather_request env (BASE_URL +:+ "/weather") london_params empty_world in
  let out2 := make_weather_request env (BASE_URL +:+ "/weather") london_params out1.2 in
  out1.1 = Return (Success 1%positive)
  ∧ out2.1 = Return (Success 1%positive)
  ∧ length (calls out1.2) = 1%nat
  ∧ length (calls out2.2) = 1%nat
  ∧ path ["_from_cache"] (deref out1.2 1%positive) = None
  ∧ path ["_from_cache"] (deref out2.2 1%positive) = Some (JBool true).
Proof. vm_compute. repeat split. Qed.

(** ** Failures *)

(** C5, as the code has it. When no API key is configured, or the request
    goes upstream and the outcome is anything but a 200 response with a
    readable body, the call returns a failure dict with a non-empty error
    text and raises nothing, the payload objects are untouched, and no cache
    entry is added or changed: the cache is the one before the call, or the
    one before the call without the stale entry of the request's own key,
    which the lookup has deleted. *)
Theorem make_weather_request_failure
    (env : Env) (endpoint : string) (params : dict) (w : World) :
  API_KEY env = EmptyString
  ∨ (cache_hit endpoint params w = false
     ∧ is_success (outcome_of env endpoint params w) = false) →
  let key := get_cache_key endpoint params in
  let out := make_weather_request env endpoint params w in
  ∃ error status_code,
    out.1 = Return (Failure error status_code)
    ∧ error ≠ EmptyString
    ∧ heap out.2 = heap w
    ∧ (_cache out.2 = _cache w
       ∨ ∃ e, _cache w !! key = Some e ∧ (CACHE_TTL <= clock w - timestamp e)%Q
              ∧ _cache out.2 = delete key (_cache w))
    ∧ _cache out.2 ⊆ _cache w
    ∧ ∀ k, k ≠ key → _cache out.2 !! k = _cache w !! k.
Proof.
  intros H key out. subst key out.
  destruct (decide (API_KEY env = EmptyString)) as [Hk|Hk].
  { rewrite make_weather_request_unconfigured by done. simpl.
    do 2 eexists. split; [reflexivity|]. split; [discriminate|]. auto. }
  destruct H as [H|[Hmiss Hfail]]; [done|].
  rewrite make_weather_request_miss by done.
  destruct (fetch_failure env endpoint (get_cache_key endpoint params) (sent_params env params)
              (with_cache (cache_after_lookup endpoint params w) w) Hfail)
    as (error & sc & Hr & Herr & Hh & Hc).
  exists error, sc. rewrite Hr, Hh, Hc. simpl.
  split; [done|]. split; [done|]. split; [done|].
  split; [|apply get_cached_shrinks].
  unfold cache_after_lookup, get_cached.
  destruct (_cache w !! get_cache_key endpoint params) as [e|] eqn:He; [|by left].
  destruct (Qltb _ _) eqn:Hq; [by left|]. right. exists e. by apply Qltb_ge in Hq.
Qed.

Lemma make_weather_request_failure_witness :
  ∃ error status_code,
    (make_weather_request (env_with test_api_key (Response 503 (inl "no body")))
       (BASE_URL +:+ "/weather") london_params empty_world).1
    = Return (Failure error status_code).
Proof.
  destruct (make_weather_request_failure
              (env_with test_api_key (Response 503 (inl "no body")))
              (BASE_URL +:+ "/weather") london_params empty_world)
    as (error & sc & Hr & _).
  - right. split; reflexivity.
  - exists error, sc. exact Hr.
Defined.

(** The claim as written fails on a stale entry: the request times out, and
    the cache after the call is not the cache before it, since the lookup
    has deleted the entry. *)
Lemma make_weather_request_timeout_changes_cache :
  let w := london_world 0 1697450000 in
  let out := make_weather_request (env_with test_api_key TimeoutException)
               (BASE_URL +:+ "/weather") london_params w in
  out.1 = Return (Failure "Request timed out" None)
  ∧ _cache w !! london_key = Some {| data := 1%positive; timestamp := 0 |}
  ∧ _cache out.2 !! london_key = None
  ∧ _cache out.2 ≠ _cache w.
Proof.
  assert (Hlook : _cache (make_weather_request (env_with test_api_key TimeoutException)
                    (BASE_URL +:+ "/weather") london_params (london_world 0 1697450000)).2
                  !! london_key = None) by (vm_compute; reflexivity).
  simpl. split; [vm_compute; reflexivity|]. split; [apply lookup_singleton_eq|].
  split; [exact Hlook|]. intros Heq. rewrite Heq in Hlook.
  simpl in Hlook. by rewrite lookup_singleton_eq in Hlook.
Qed.

(** C8. A request that goes upstream classifies the outcome: status 401 and
    404 have their own error texts, any other status but 200 gives
    [API error: <status>], and each of these carries the status code; a
    timeout, another request error, and any other exception (a body that
    does not parse included) give a failure dict with their own texts. The
    call always returns; it raises nothing. *)
Theorem make_weather_request_classifies
    (env : Env) (endpoint : string) (params : dict) (w : World) :
  API_KEY env ≠ EmptyString →
  cache_hit endpoint params w = false →
  let o := outcome_of env endpoint params w in
  let r := (make_weather_request env endpoint params w).1 in
  (∀ body, o = Response 401 body → r = Return (Failure "Invalid API key" (Some 401)))
  ∧ (∀ body, o = Response 404 body → r = Return (Failure "Location not found" (Some 404)))
  ∧ (∀ status_code body, o = Response status_code body →
       status_code ≠ 200 → status_code ≠ 401 → status_code ≠ 404 →
       r = Return (Failure ("API error: " +:+ str_of_int status_code) (Some status_code)))
  ∧ (o = TimeoutException → r = Return (Failure "Request timed out" None))
  ∧ (∀ msg, o = RequestError msg → r = Return (Failure ("Request failed: " +:+ msg) None))
  ∧ (∀ msg, o = OtherException msg →
       r = Return (Failure ("Unexpected error: " +:+ msg) None))
  ∧ (∀ msg, o = Response 200 (inl msg) →
       r = Return (Failure ("Unexpected error: " +:+ msg) None))
  ∧ (∀ j, o = Response 200 (inr j) → ∃ l, r = Return (Success l))
  ∧ ∃ x, r = Return x.
Proof.
  intros Hk Hmiss o r. subst o r. unfold outcome_of.
  rewrite make_weather_request_miss by done. unfold fetch.
  destruct (upstream env _ endpoint _) as [o dt]. simpl.
  repeat split; try (intros; subst o; simpl; by eauto).
  - intros sc body -> H200 H401 H404.
    apply Z.eqb_neq in H200, H401, H404. by rewrite H200, H401, H404.
  - destruct o as [sc [msg|j]| |msg|msg];
      repeat (match goal with |- context [if ?b then _ else _] => destruct b end);
      simpl; eauto.
Qed.

Lemma make_weather_request_classifies_witness :
  (make_weather_request (env_with test_api_key (Response 500 (inl "no body")))
     (BASE_URL +:+ "/weather") london_params empty_world).1
  = Return (Failure "API error: 500" (Some 500)).
Proof.
  refine (proj1 (proj2 (proj2 (make_weather_request_classifies
            (env_with test_api_key (Response 500 (inl "no body")))
            (BASE_URL +:+ "/weather") london_params empty_world _ _)))
          500 (inl "no body") _ _ _ _); try discriminate; reflexivity.
Defined.

(** ** The cache marker *)

(** The fetch allocates at most one object and touches none that exists. *)
Lemma fetch_heap_frame (env : Env) (endpoint cache_key : string) (params : dict)
    (w : World) (l : loc) (x : json) :
  heap w !! l = Some x → heap (fetch env endpoint cache_key params w).2 !! l = Some x.
Proof.
  intros Hl. unfold fetch.
  destruct (upstream env _ endpoint params) as [[sc [msg|j]| |msg|msg] dt]; simpl;
    repeat (match goal with |- context [if ?b then _ else _] => destruct b eqn:? end);
    simpl; try exact Hl.
  rewrite lookup_insert_ne; [exact Hl|].
  intros Heq. apply (is_fresh (dom (heap w))). rewrite Heq.
  apply elem_of_dom. eauto.
Qed.

(** A request leaves a payload dict as it is, or adds the marker to it. *)
Lemma make_weather_request_heap (env : Env) (endpoint : string) (params : dict)
    (w : World) (l : loc) (d : dict) :
  heap w !! l = Some (JDict d) →
  let h := heap (make_weather_request env endpoint params w).2 in
  h !! l = Some (JDict d) ∨ h !! l = Some (JDict (dict_set "_from_cache" (JBool true) d)).
Proof.
  intros Hl. unfold make_weather_request.
  destruct (negb (truthy (JStr (API_KEY env)))); [by left|].
  destruct (get_cached _ _ _) as [[l0|] c]; simpl.
  - change (deref (with_cache c w) l0) with (deref w l0).
    destruct (truthy (deref w l0)).
    + unfold deref. destruct (heap w !! l0) as [x|] eqn:Hl0; simpl; [|by left].
      destruct x; simpl; try by left.
      destruct (decide (l0 = l)) as [->|Hne].
      * right. rewrite lookup_insert_eq. congruence.
      * left. by rewrite lookup_insert_ne.
    + left. by apply fetch_heap_frame.
  - left. by apply fetch_heap_frame.
Qed.

(** The marker and the other fields of a payload dict survive every step. *)
Lemma step_keeps_marker (env : Env) (w w' : World) (l : loc) (d : dict) :
  step env w w' →
  (∃ d', heap w !! l = Some (JDict d')
         ∧ dict_lookup "_from_cache" d' = Some (JBool true)
         ∧ ∀ k, k ≠ "_from_cache" → dict_lookup k d' = dict_lookup k d) →
  ∃ d', heap w' !! l = Some (JDict d')
        ∧ dict_lookup "_from_cache" d' = Some (JBool true)
        ∧ ∀ k, k ≠ "_from_cache" → dict_lookup k d' = dict_lookup k d.
Proof.
  intros Hstep (d' & Hl & Hm & Hrest). destruct Hstep as [w dt|w endpoint params].
  - exists d'. done.
  - destruct (make_weather_request_heap env endpoint params w l d' Hl) as [H|H].
    + exists d'. done.
    + exists (dict_set "_from_cache" (JBool true) d'). split; [done|]. split.
      * apply dict_lookup_set_eq.
      * intros k Hk. rewrite dict_lookup_set_ne by done. by apply Hrest.
Qed.

Lemma steps_keep_marker (env : Env) (w w' : World) (l : loc) (d : dict) :
  rtc (step env) w w' →
  (∃ d', heap w !! l = Some (JDict d')
         ∧ dict_lookup "_from_cache" d' = Some (JBool true)
         ∧ ∀ k, k ≠ "_from_cache" → dict_lookup k d' = dict_lookup k d) →
  ∃ d', heap w' !! l = Some (JDict d')
        ∧ dict_lookup "_from_cache" d' = Some (JBool true)
        ∧ ∀ k, k ≠ "_from_cache" → dict_lookup k d' = dict_lookup k d.
Proof.
  induction 1 as [w|w w1 w2 Hstep _ IH]; [done|].
  intros H. apply IH. by apply (step_keeps_marker env w w1).
Qed.

(** C10. A request answered from the cache (a fresh entry whose payload is a
    non-empty dict) returns the stored object itself and sets
    [_from_cache: True] in that object, in place: no object is allocated, the
    other fields of the payload keep their values, and the cache — the entry,
    its payload reference and its timestamp — is what it was, as are the
    clock and the upstream log. From then on the stored object carries the
    marker, with its other fields unchanged, whatever requests follow. *)
Theorem cache_hit_marks_stored_payload
    (env : Env) (endpoint : string) (params : dict) (w : World)
    (e : CacheEntry) (d : dict) :
  API_KEY env ≠ EmptyString →
  _cache w !! get_cache_key endpoint params = Some e →
  (clock w - timestamp e < CACHE_TTL)%Q →
  heap w !! data e = Some (JDict d) → d ≠ [] →
  let out := make_weather_request env endpoint params w in
  let d' := dict_set "_from_cache" (JBool true) d in
  out.1 = Return (Success (data e))
  ∧ heap out.2 = <[data e := JDict d']> (heap w)
  ∧ dom (heap out.2) = dom (heap w)
  ∧ dict_lookup "_from_cache" d' = Some (JBool true)
  ∧ (∀ k, k ≠ "_from_cache" → dict_lookup k d' = dict_lookup k d)
  ∧ _cache out.2 = _cache w
  ∧ _cache out.2 !! get_cache_key endpoint params = Some e
  ∧ clock out.2 = clock w
  ∧ calls out.2 = calls w
  ∧ ∀ w', rtc (step env) out.2 w' →
      ∃ d'', heap w' !! data e = Some (JDict d'')
             ∧ dict_lookup "_from_cache" d'' = Some (JBool true)
             ∧ ∀ k, k ≠ "_from_cache" → dict_lookup k d'' = dict_lookup k d.
Proof.
  intros Hk He Hfresh Hd Hne out d'. subst out d'.
  rewrite (make_weather_request_hit env endpoint params w (data e) d); try done;
    [|by rewrite (get_cached_fresh _ _ _ e)].
  simpl. split; [done|]. split; [done|]. split.
  { apply dom_insert_lookup_L. by rewrite Hd. }
  split; [apply dict_lookup_set_eq|].
  split; [intros k Hne'; by apply dict_lookup_set_ne|].
  split; [done|]. split; [done|]. split; [done|]. split; [done|].
  intros w' Hsteps. apply (steps_keep_marker env _ w' (data e) d Hsteps).
  exists (dict_set "_from_cache" (JBool true) d). simpl. split; [apply lookup_insert_eq|].
  split; [apply dict_lookup_set_eq|]. intros k Hne'. by apply dict_lookup_set_ne.
Qed.

Lemma cache_hit_marks_stored_payload_witness :
  let out := make_weather_request (env_with test_api_key TimeoutException)
               (BASE_URL +:+ "/weather") london_params (london_world 1697449900 1697450000) in
  out.1 = Return (Success 1%positive)
  ∧ _cache out.2 = _cache (london_world 1697449900 1697450000).
Proof.
  destruct (cache_hit_marks_stored_payload (env_with test_api_key TimeoutException)
              (BASE_URL +:+ "/weather") london_params (london_world 1697449900 1697450000)
              {| data := 1%positive; timestamp := 1697449900 |}
              [("name", JStr "London");
               ("sys", JDict [("country", JStr "GB"); ("sunrise", JInt 1697440920);
                              ("sunset", JInt 1697480100)]);
               ("coord", JDict [("lat", JFloat "51.5074"); ("lon", JFloat "-0.1278")]);
               ("main", JDict [("temp", JFloat "15.5"); ("feels_like", JFloat "14.2");
                               ("temp_min", JFloat "13.0"); ("temp_max", JFloat "17.0");
                               ("pressure", JInt 1013); ("humidity", JInt 72)]);
               ("weather", JList [JDict [("description", JStr "partly cloudy");
                                         ("icon", JStr "02d")]]);
               ("wind", JDict [("speed", JFloat "5.2"); ("deg", JInt 230)]);
               ("clouds", JDict [("all", JInt 40)]);
               ("visibility", JInt 10000);
               ("dt", JInt 1697450000)])
    as (Hr & _ & _ & _ & _ & Hc & _).
  - discriminate.
  - apply lookup_singleton_eq.
  - apply Qltb_lt. reflexivity.
  - apply lookup_singleton_eq.
  - discriminate.
  - split; [exact Hr | exact Hc].
Defined.

(** ** Tools without an API key *)

Section Unconfigured.
Context (env : Env) (w : World) (Hkey : API_KEY env = EmptyString).

Lemma request_then_unconfigured endpoint params output :
  request_then env endpoint params output w = (Return (failure_dict not_configured None), w).
Proof. unfold request_then. by rewrite make_weather_request_unconfigured. Qed.

Lemma compare_loop_unconfigured units locations :
  compare_loop env units locations w
  = (Return (map (λ location, JDict [("location", JStr location);
                                     ("error", JStr not_configured)]) locations), w).
Proof.
  induction locations as [|location rest IH]; simpl; [done|].
  rewrite make_weather_request_unconfigured by done. by rewrite IH.
Qed.

End Unconfigured.

(** C6, as the code has it. When no API key is configured, each of the five
    single-request tools returns the failure dict with the text
    [API key not configured. ...]; [compare_weather] returns its own
    validation failure for fewer than 2 or more than 5 locations, and for 2
    to 5 locations a dict with [success: True] whose entries carry, location
    by location, that error text. None of these calls changes the process
    state: no request goes upstream and the cache is what it was, so a cache
    that was empty stays empty. *)
Theorem tools_without_api_key (env : Env) (w : World) :
  API_KEY env = EmptyString →
  let failure := JDict [("success", JBool false); ("error", JStr not_configured)] in
  (∀ location units, get_current_weather env location units w = (Return failure, w))
  ∧ (∀ location units days, get_forecast env location units days w = (Return failure, w))
  ∧ (∀ query limit, search_location env query limit w = (Return failure, w))
  ∧ (∀ latitude longitude units,
       get_weather_by_coordinates env latitude longitude units w = (Return failure, w))
  ∧ (∀ latitude longitude, get_air_quality env latitude longitude w = (Return failure, w))
  ∧ (∀ locations units,
       (compare_weather env locations units w).2 = w
       ∧ ((length locations < 2)%nat →
          (compare_weather env locations units w).1
          = Return (JDict [("success", JBool false);
                           ("error", JStr "Please provide at least 2 locations to compare")]))
       ∧ ((5 < length locations)%nat →
          (compare_weather env locations units w).1
          = Return (JDict [("success", JBool false);
                           ("error", JStr "Maximum 5 locations allowed for comparison")]))
       ∧ ((2 ≤ length locations ≤ 5)%nat →
          (compare_weather env locations units w).1
          = Return (JDict [
              ("success", JBool true);
              ("locations", JList (map (λ location, JDict [("location", JStr location);
                                                           ("error", JStr not_configured)])
                                       locations));
              ("units", JStr units);
              ("comparison_time", JStr (now_isoformat env (clock w)))])))
  ∧ (_cache w = ∅ → ∀ location units,
       _cache (get_current_weather env location units w).2 = ∅).
Proof.
  intros Hkey failure.
  split; [intros; by apply request_then_unconfigured|].
  split; [intros; by apply request_then_unconfigured|].
  split; [intros; by apply request_then_unconfigured|].
  split; [intros; by apply request_then_unconfigured|].
  split; [intros; by apply request_then_unconfigured|].
  split.
  - intros locations units. unfold compare_weather.
    destruct (length locations <? 2)%nat eqn:E1.
    { apply Nat.ltb_lt in E1. split; [done|]. split; [done|]. split; intros; lia. }
    destruct (5 <? length locations)%nat eqn:E2.
    { apply Nat.ltb_ge in E1. apply Nat.ltb_lt in E2.
      split; [done|]. split; [intros; lia|]. split; [done|]. intros; lia. }
    apply Nat.ltb_ge in E1, E2. rewrite compare_loop_unconfigured by done. simpl.
    split; [done|]. split; [intros; lia|]. split; [intros; lia|]. done.
  - intros Hempty location units. unfold get_current_weather.
    by rewrite request_then_unconfigured.
Qed.

Lemma tools_without_api_key_witness :
  get_current_weather (env_with EmptyString TimeoutException) "London,UK" "metric" empty_world
  = (Return (JDict [("success", JBool false); ("error", JStr not_configured)]), empty_world).
Proof.
  refine (proj1 (tools_without_api_key (env_with EmptyString TimeoutException) empty_world _)
            "London,UK" "metric").
  reflexivity.
Defined.

(** The claim as written fails for [compare_weather]: without an API key, a
    comparison of two locations returns [success: True]. *)
Lemma compare_weather_without_api_key_succeeds :
  ∃ out,
    (compare_weather (env_with EmptyString TimeoutException)
       ["London,UK"; "Paris,FR"] "metric" empty_world).1 = Return out
    ∧ path ["success"] out = Some (JBool true)
    ∧ path ["success"] out ≠ Some (JBool false).
Proof. eexists. split; [reflexivity|]. split; [reflexivity | discriminate]. Qed.

(** ** Validation of the comparison list *)

(** C7. A comparison of fewer than 2 or of more than 5 locations is refused
    with a failure dict and the process state is untouched: nothing goes
    upstream and nothing is written to the cache. A list of 2 to 5 locations
    is not refused: the call is the loop over the locations, and what it
    returns then is a dict with [success: True]. *)
Theorem compare_weather_validates
    (env : Env) (locations : list string) (units : string) (w : World) :
  ((length locations < 2)%nat →
     compare_weather env locations units w
     = (Return (JDict [("success", JBool false);
                       ("error", JStr "Please provide at least 2 locations to compare")]), w))
  ∧ ((5 < length locations)%nat →
     compare_weather env locations units w
     = (Return (JDict [("success", JBool false);
                       ("error", JStr "Maximum 5 locations allowed for comparison")]), w))
  ∧ ((2 ≤ length locations ≤ 5)%nat →
     compare_weather env locations units w
     = (cs ← (compare_loop env units locations w).1;
        Return (JDict [
          ("success", JBool true);
          ("locations", JList cs);
          ("units", JStr units);
          ("comparison_time",
           JStr (now_isoformat env (clock (compare_loop env units locations w).2)))]),
        (compare_loop env units locations w).2)
     ∧ ∀ out, (compare_weather env locations units w).1 = Return out →
         path ["success"] out = Some (JBool true)).
Proof.
  split; [|split].
  - intros Hlt. unfold compare_weather. apply Nat.ltb_lt in Hlt. by rewrite Hlt.
  - intros Hgt. unfold compare_weather.
    destruct (length locations <? 2)%nat eqn:E; [apply Nat.ltb_lt in E; lia|].
    apply Nat.ltb_lt in Hgt. by rewrite Hgt.
  - intros [Hge Hle]. unfold compare_weather.
    destruct (length locations <? 2)%nat eqn:E1; [apply Nat.ltb_lt in E1; lia|].
    destruct (5 <? length locations)%nat eqn:E2; [apply Nat.ltb_lt in E2; lia|].
    destruct (compare_loop env units locations w) as [[cs|e] w']; simpl.
    + split; [done|]. intros out [= <-]. reflexivity.
    + split; [done|]. intros out [=].
Qed.

Lemma compare_weather_validates_witness :
  compare_weather (env_with test_api_key TimeoutException) ["London,UK"] "metric" empty_world
  = (Return (JDict [("success", JBool false);
                    ("error", JStr "Please provide at least 2 locations to compare")]),
     empty_world).
Proof.
  refine (proj1 (compare_weather_validates (env_with test_api_key TimeoutException)
                   ["London,UK"] "metric" empty_world) _).
  simpl. lia.
Defined.

(** ** Reshaping the current weather *)

Lemma get2_object (d s : dict) (k1 k2 : string) :
  dict_lookup k1 d = Some (JDict s) →
  get2 (JDict d) k1 k2 = Return (default JNull (dict_lookup k2 s)).
Proof. intros H. unfold get2. simpl. by rewrite H. Qed.

Lemma get2_returns (d : dict) (k1 k2 : string) :
  object_or_absent k1 d → ∃ v, get2 (JDict d) k1 k2 = Return v.
Proof.
  unfold object_or_absent, get2. simpl.
  destruct (dict_lookup k1 d) as [[]|]; simpl; try done; eauto.
Qed.

Lemma weather0_returns (d : dict) (k : string) :
  weather_readable d → ∃ v, weather0 (JDict d) k = Return v.
Proof.
  unfold weather_readable, weather0. simpl.
  destruct (dict_lookup "weather" d) as [[| | | | |[|[] ?]|]|]; simpl; try done; eauto.
Qed.

(** The reshaping of a payload with the London fields, when the other fields
    it reads can be read. *)
Lemma current_weather_output_london (env : Env) (units : string) (d sys main : dict) :
  dict_lookup "name" d = Some (JStr "London") →
  dict_lookup "sys" d = Some (JDict sys) →
  dict_lookup "country" sys = Some (JStr "GB") →
  dict_lookup "main" d = Some (JDict main) →
  dict_lookup "temp" main = Some (JFloat "15.5") →
  well_shaped env d sys →
  ∃ out, current_weather_output env units (JDict d) = Return out
         ∧ path ["success"] out = Some (JBool true)
         ∧ path ["location"; "name"] out = Some (JStr "London")
         ∧ path ["location"; "country"] out = Some (JStr "GB")
         ∧ path ["current"; "temperature"] out = Some (JFloat "15.5").
Proof.
  intros Hname Hsys Hcountry Hmain Htemp
    (Hcoord & Hwind & Hclouds & Hweather & [iso Hdt] & [rise Hrise] & [set Hset]).
  destruct (get2_returns d "coord" "lat" Hcoord) as [lat Hlat].
  destruct (get2_returns d "coord" "lon" Hcoord) as [lon Hlon].
  destruct (get2_returns d "wind" "speed" Hwind) as [speed Hspeed].
  destruct (get2_returns d "wind" "deg" Hwind) as [deg Hdeg].
  destruct (get2_returns d "clouds" "all" Hclouds) as [clouds Hall].
  destruct (weather0_returns d "description" Hweather) as [description Hdescription].
  destruct (weather0_returns d "icon" Hweather) as [icon Hicon].
  unfold current_weather_output.
  rewrite (get2_object d sys "sys" "country") by done.
  rewrite !(get2_object d main "main") by done.
  rewrite Hlat, Hlon, Hspeed, Hdeg, Hall, Hdescription, Hicon.
  simpl. rewrite Hname, Hsys, Hcountry, Htemp. simpl.
  rewrite Hdt. simpl. rewrite Hrise. simpl. rewrite Hset. simpl.
  eexists. split; [reflexivity|]. repeat split.
Qed.

(** C9, as the code has it. With an API key, when the request goes upstream
    and the answer is a 200 response whose payload has [name == "London"],
    [sys.country == "GB"] and [main.temp == 15.5], and whose other fields
    that the tool reads are readable ([coord], [wind] and [clouds] missing or
    objects, [weather] missing or a list that begins with an object, [dt],
    [sys.sunrise] and [sys.sunset] accepted by [datetime.fromtimestamp]),
    [get_current_weather] returns a dict with [success: True], that name,
    that country and that temperature. *)
Theorem get_current_weather_london
    (env : Env) (location units : string) (w : World) (d sys main : dict) :
  API_KEY env ≠ EmptyString →
  cache_hit (BASE_URL +:+ "/weather") [("q", JStr location); ("units", JStr units)] w = false →
  outcome_of env (BASE_URL +:+ "/weather") [("q", JStr location); ("units", JStr units)] w
  = Response 200 (inr (JDict d)) →
  dict_lookup "name" d = Some (JStr "London") →
  dict_lookup "sys" d = Some (JDict sys) →
  dict_lookup "country" sys = Some (JStr "GB") →
  dict_lookup "main" d = Some (JDict main) →
  dict_lookup "temp" main = Some (JFloat "15.5") →
  well_shaped env d sys →
  ∃ out, (get_current_weather env location units w).1 = Return out
         ∧ path ["success"] out = Some (JBool true)
         ∧ path ["location"; "name"] out = Some (JStr "London")
         ∧ path ["location"; "country"] out = Some (JStr "GB")
         ∧ path ["current"; "temperature"] out = Some (JFloat "15.5").
Proof.
  intros Hk Hmiss Hout Hname Hsys Hcountry Hmain Htemp Hshape.
  unfold get_current_weather, request_then.
  rewrite make_weather_request_miss by done.
  unfold fetch. unfold outcome_of in Hout.
  destruct (upstream env _ _ _) as [o dt]. simpl in Hout. subst o. simpl.
  unfold deref. simpl. rewrite lookup_insert_eq. simpl.
  by apply (current_weather_output_london env units d sys main).
Qed.

Lemma get_current_weather_london_witness :
  ∃ out,
    (get_current_weather (env_with test_api_key (Response 200 (inr mock_weather_response)))
       "London,UK" "metric" empty_world).1 = Return out
    ∧ path ["location"; "name"] out = Some (JStr "London")
    ∧ path ["location"; "country"] out = Some (JStr "GB")
    ∧ path ["current"; "temperature"] out = Some (JFloat "15.5").
Proof.
  destruct (get_current_weather_london
              (env_with test_api_key (Response 200 (inr mock_weather_response)))
              "London,UK" "metric" empty_world
              [("name", JStr "London");
               ("sys", JDict [("country", JStr "GB"); ("sunrise", JInt 1697440920);
                              ("sunset", JInt 1697480100)]);
               ("coord", JDict [("lat", JFloat "51.5074"); ("lon", JFloat "-0.1278")]);
               ("main", JDict [("temp", JFloat "15.5"); ("feels_like", JFloat "14.2");
                               ("temp_min", JFloat "13.0"); ("temp_max", JFloat "17.0");
                               ("pressure", JInt 1013); ("humidity", JInt 72)]);
               ("weather", JList [JDict [("description", JStr "partly cloudy");
                                         ("icon", JStr "02d")]]);
               ("wind", JDict [("speed", JFloat "5.2"); ("deg", JInt 230)]);
               ("clouds", JDict [("all", JInt 40)]);
               ("visibility", JInt 10000);
               ("dt", JInt 1697450000)]
              [("country", JStr "GB"); ("sunrise", JInt 1697440920);
               ("sunset", JInt 1697480100)]
              [("temp", JFloat "15.5"); ("feels_like", JFloat "14.2");
               ("temp_min", JFloat "13.0"); ("temp_max", JFloat "17.0");
               ("pressure", JInt 1013); ("humidity", JInt 72)])
    as (out & Hr & _ & Hn & Hc & Ht).
  - discriminate.
  - reflexivity.
  - reflexivity.
  - reflexivity.
  - reflexivity.
  - reflexivity.
  - reflexivity.
  - reflexivity.
  - unfold well_shaped, object_or_absent, weather_readable, time_readable. simpl.
    repeat split; eexists; reflexivity.
  - exists out. auto.
Defined.

(** The claim as written fails on a payload that has the three fields and an
    empty ["weather"] list: the tool raises [IndexError]. *)
Lemma get_current_weather_empty_weather_raises :
  path ["name"] london_without_weather = Some (JStr "London")
  ∧ path ["sys"; "country"] london_without_weather = Some (JStr "GB")
  ∧ path ["main"; "temp"] london_without_weather = Some (JFloat "15.5")
  ∧ (get_current_weather (env_with test_api_key (Response 200 (inr london_without_weather)))
       "London,UK" "metric" empty_world).1 = Raise IndexError.
Proof. repeat split. Qed.

(** * Further properties of the cache and the dispatcher *)

(** ** What a read returns *)



(** ** One request, one key, at most one upstream call *)

(** X2. A request sends nothing upstream or exactly one GET, never more. The GET
    goes to the endpoint of the request with the caller's parameters, to which
    only ["appid"], the API key, has been added. *)
Theorem make_weather_request_at_most_one_call
    (env : Env) (endpoint : string) (params : dict) (w : World) :
  let w' := (make_weather_request env endpoint params w).2 in
  calls w' = calls w
  ∨ (calls w' = (calls w ++ [(endpoint, sent_params env params)])%list
     ∧ dict_lookup "appid" (sent_params env params) = Some (JStr (API_KEY env))
     ∧ ∀ k, k ≠ "appid" → dict_lookup k (sent_params env params) = dict_lookup k params).
Proof.
  simpl. unfold make_weather_request.
  destruct (negb (truthy (JStr (API_KEY env)))); [by left|].
  destruct (get_cached _ _ _) as [cached c].
  assert (Hsent : calls (fetch env endpoint (get_cache_key endpoint params)
                           (dict_set "appid" (JStr (API_KEY env)) params) (with_cache c w)).2
                  = (calls w ++ [(endpoint, sent_params env params)])%list
                  ∧ dict_lookup "appid" (sent_params env params) = Some (JStr (API_KEY env))
                  ∧ ∀ k, k ≠ "appid" →
                      dict_lookup k (sent_params env params) = dict_lookup k params).
  { rewrite fetch_calls. split; [done|]. split; [apply dict_lookup_set_eq|].
    intros k Hk. by apply dict_lookup_set_ne. }
  destruct cached as [l|]; [|by right].
  destruct (truthy (deref (with_cache c w) l)); [|by right].
  left. by destruct (deref (with_cache c w) l).
Qed.

(** The fetch writes the cache under its key only. *)
Lemma fetch_cache_frame (env : Env) (endpoint cache_key : string) (params : dict)
    (w : World) (k : string) :
  k ≠ cache_key → _cache (fetch env endpoint cache_key params w).2 !! k = _cache w !! k.
Proof.
  intros Hk. unfold fetch.
  destruct (upstream env _ endpoint params) as [[sc [msg|j]| |msg|msg] dt]; simpl;
    repeat (match goal with |- context [if ?b then _ else _] => destruct b eqn:? end);
    simpl; try done.
  unfold set_cache. by rewrite lookup_insert_ne.
Qed.

(** X3. A request reads and writes the cache under its own key only: the entry of
    any other key, fresh or stale, is what it was. Nothing but a read of the
    same key ever removes an entry. *)
Theorem make_weather_request_cache_frame
    (env : Env) (endpoint : string) (params : dict) (w : World) (k : string) :
  k ≠ get_cache_key endpoint params →
  _cache (make_weather_request env endpoint params w).2 !! k = _cache w !! k.
Proof.
  intros Hk. unfold make_weather_request.
  destruct (negb (truthy (JStr (API_KEY env)))); [done|].
  pose proof (proj2 (get_cached_shrinks (clock w) (get_cache_key endpoint params) (_cache w))
                k Hk) as Hshrink.
  destruct (get_cached _ _ _) as [cached c]. simpl in Hshrink.
  assert (Hmiss : _cache (fetch env endpoint (get_cache_key endpoint params)
                    (dict_set "appid" (JStr (API_KEY env)) params) (with_cache c w)).2 !! k
                  = _cache w !! k).
  { by rewrite fetch_cache_frame. }
  destruct cached as [l|]; [|done].
  destruct (truthy (deref (with_cache c w) l)); [|done].
  by destruct (deref (with_cache c w) l).
Qed.

Lemma make_weather_request_cache_frame_witness :
  _cache (make_weather_request (env_with test_api_key (Response 200 (inr mock_weather_response)))
            (BASE_URL +:+ "/forecast") london_params (london_world 0 1697450000)).2
    !! london_key
  = _cache (london_world 0 1697450000) !! london_key.
Proof.
  refine (make_weather_request_cache_frame _ (BASE_URL +:+ "/forecast") london_params
            (london_world 0 1697450000) london_key _).
  discriminate.
Defined.

(** ** Two requests in a row *)

(** A fetch that gets a 200 response with a readable body stores the body as
    a new object and caches it under the key with the time of the store. *)
Lemma fetch_success (env : Env) (endpoint cache_key : string) (params : dict)
    (w : World) (j : json) (dt : Q) :
  upstream env (length (calls w)) endpoint params = (Response 200 (inr j), dt) →
  fetch env endpoint cache_key params w
  = (Return (Success (fresh (dom (heap w)))),
     {| heap := <[fresh (dom (heap w)) := j]> (heap w);
        _cache := <[cache_key := {| data := fresh (dom (heap w));
                                    timestamp := (clock w + dt)%Q |}]> (_cache w);
        clock := (clock w + dt)%Q;
        calls := calls w ++ [(endpoint, params)] |}).
Proof. intros H. unfold fetch. by rewrite H. Qed.

(** A request that missed and came back with a payload. *)
Lemma make_weather_request_stores (env : Env) (endpoint : string) (params : dict)
    (w : World) (j : json) (dt : Q) :
  API_KEY env ≠ EmptyString →
  cache_hit endpoint params w = false →
  upstream env (length (calls w)) endpoint (sent_params env params)
  = (Response 200 (inr j), dt) →
  make_weather_request env endpoint params w
  = (Return (Success (fresh (dom (heap w)))),
     {| heap := <[fresh (dom (heap w)) := j]> (heap w);
        _cache := <[get_cache_key endpoint params :=
                      {| data := fresh (dom (heap w)); timestamp := (clock w + dt)%Q |}]>
                    (cache_after_lookup endpoint params w);
        clock := (clock w + dt)%Q;
        calls := calls w ++ [(endpoint, sent_params env params)] |}).
Proof.
  intros Hk Hmiss Hup. rewrite make_weather_request_miss by done.
  by rewrite (fetch_success _ _ _ _ _ j dt).
Qed.

(** A request that was not answered from the cache is not answered from the
    cache later either, as long as no payload was stored in between. *)
Lemma miss_persists (endpoint : string) (params : dict) (w w' : World) :
  cache_hit endpoint params w = false →
  heap w' = heap w →
  _cache w' = cache_after_lookup endpoint params w →
  cache_hit endpoint params w' = false.
Proof.
  unfold cache_hit, cache_after_lookup, get_cached, deref.
  intros Hmiss Hh Hc. rewrite Hc, Hh.
  destruct (_cache w !! get_cache_key endpoint params) as [e|] eqn:He; simpl.
  - destruct (Qltb (clock w - timestamp e) CACHE_TTL); simpl in *.
    + rewrite He. by destruct (Qltb _ _).
    + by rewrite lookup_delete_eq.
  - by rewrite He.
Qed.

(** X4. The second of two identical requests is served from the cache. When a
    request goes upstream and gets a non-empty JSON object, the same request
    made again less than [CACHE_TTL] seconds after the store sends nothing
    upstream and returns the very object the first one returned, now with
    [_from_cache: True]. *)
Theorem repeated_request_served_from_cache
    (env : Env) (endpoint : string) (params : dict) (w : World)
    (d : dict) (dt idle : Q) :
  API_KEY env ≠ EmptyString →
  cache_hit endpoint params w = false →
  upstream env (length (calls w)) endpoint (sent_params env params)
  = (Response 200 (inr (JDict d)), dt) →
  d ≠ [] →
  (idle < CACHE_TTL)%Q →
  let out1 := make_weather_request env endpoint params w in
  let out2 := make_weather_request env endpoint params (advance idle out1.2) in
  ∃ l, out1.1 = Return (Success l)
       ∧ out2.1 = Return (Success l)
       ∧ calls out1.2 = (calls w ++ [(endpoint, sent_params env params)])%list
       ∧ calls out2.2 = calls out1.2
       ∧ heap out1.2 !! l = Some (JDict d)
       ∧ heap out2.2 !! l = Some (JDict (dict_set "_from_cache" (JBool true) d)).
Proof.
  intros Hk Hmiss Hup Hne Hidle out1 out2. subst out1 out2.
  rewrite (make_weather_request_stores env endpoint params w (JDict d) dt) by done.
  simpl. set (l := fresh (dom (heap w))).
  rewrite (make_weather_request_hit env endpoint params _ l d); try done.
  - exists l. simpl. repeat split; try done; apply lookup_insert_eq.
  - simpl. rewrite (get_cached_fresh _ _ _ {| data := l; timestamp := (clock w + dt)%Q |});
      [done | apply lookup_insert_eq |].
    simpl. unfold CACHE_TTL in *. lra.
  - simpl. apply lookup_insert_eq.
Qed.

Lemma repeated_request_served_from_cache_witness :
  let env := env_with test_api_key (Response 200 (inr mock_weather_response)) in
  let out1 := make_weather_request env (BASE_URL +:+ "/weather") london_params empty_world in
  let out2 := make_weather_request env (BASE_URL +:+ "/weather") london_params
                (advance 599 out1.2) in
  ∃ l, out1.1 = Return (Success l) ∧ out2.1 = Return (Success l).
Proof.
  destruct (repeated_request_served_from_cache
              (env_with test_api_key (Response 200 (inr mock_weather_response)))
              (BASE_URL +:+ "/weather") london_params empty_world
              [("name", JStr "London");
               ("sys", JDict [("country", JStr "GB"); ("sunrise", JInt 1697440920);
                              ("sunset", JInt 1697480100)]);
               ("coord", JDict [("lat", JFloat "51.5074"); ("lon", JFloat "-0.1278")]);
               ("main", JDict [("temp", JFloat "15.5"); ("feels_like", JFloat "14.2");
                               ("temp_min", JFloat "13.0"); ("temp_max", JFloat "17.0");
                               ("pressure", JInt 1013); ("humidity", JInt 72)]);
               ("weather", JList [JDict [("description", JStr "partly cloudy");
                                         ("icon", JStr "02d")]]);
               ("wind", JDict [("speed", JFloat "5.2"); ("deg", JInt 230)]);
               ("clouds", JDict [("all", JInt 40)]);
               ("visibility", JInt 10000);
               ("dt", JInt 1697450000)] 0 599)
    as (l & H1 & H2 & _).
  - discriminate.
  - reflexivity.
  - reflexivity.
  - discriminate.
  - apply Qltb_lt. reflexivity.
  - exists l. split; [exact H1 | exact H2].
Defined.

(** X5. A failure is not cached. When a request goes upstream and fails, the same
    request made again, at any later time, goes upstream again: after the two
    requests the log has grown by two GETs. *)
Theorem failed_request_is_retried_upstream
    (env : Env) (endpoint : string) (params : dict) (w : World) (idle : Q) :
  API_KEY env ≠ EmptyString →
  cache_hit endpoint params w = false →
  is_success (outcome_of env endpoint params w) = false →
  let out1 := make_weather_request env endpoint params w in
  let out2 := make_weather_request env endpoint params (advance idle out1.2) in
  (∃ error status_code, out1.1 = Return (Failure error status_code))
  ∧ calls out2.2
    = (calls w ++ [(endpoint, sent_params env params); (endpoint, sent_params env params)])%list.
Proof.
  intros Hk Hmiss Hfail out1 out2. subst out1 out2.
  destruct (fetch_failure env endpoint (get_cache_key endpoint params) (sent_params env params)
              (with_cache (cache_after_lookup endpoint params w) w) Hfail)
    as (error & sc & Hr & _ & Hh & Hc).
  split.
  { exists error, sc. by rewrite make_weather_request_miss. }
  rewrite (make_weather_request_miss env endpoint params (advance idle _)); [|done|].
  - rewrite fetch_calls. simpl. rewrite make_weather_request_miss by done.
    rewrite fetch_calls. simpl. by rewrite <- app_assoc.
  - apply (miss_persists endpoint params w); [done| |]; simpl;
      rewrite make_weather_request_miss by done; [exact Hh | exact Hc].
Qed.

Lemma failed_request_is_retried_upstream_witness :
  let env := env_with test_api_key (Response 404 (inl "not json")) in
  let out1 := make_weather_request env (BASE_URL +:+ "/weather") london_params empty_world in
  length (calls (make_weather_request env (BASE_URL +:+ "/weather") london_params
                   (advance 1 out1.2)).2) = 2%nat.
Proof.
  pose proof (failed_request_is_retried_upstream
                (env_with test_api_key (Response 404 (inl "not json")))
                (BASE_URL +:+ "/weather") london_params empty_world 1
                ltac:(discriminate) eq_refl eq_refl) as [_ H].
  exact (f_equal length H).
Defined.

(** The entry a fetch leaves under its key is the one that was there, or one
    for an object allocated by this fetch. *)
Lemma fetch_key_entry (env : Env) (endpoint cache_key : string) (params : dict)
    (w : World) (e : CacheEntry) :
  _cache (fetch env endpoint cache_key params w).2 !! cache_key = Some e →
  _cache w !! cache_key = Some e ∨ data e = fresh (dom (heap w)).
Proof.
  unfold fetch.
  destruct (upstream env _ endpoint params) as [[sc [msg|j]| |msg|msg] dt]; simpl;
    repeat (match goal with |- context [if ?b then _ else _] => destruct b eqn:? end);
    simpl; try (by left).
  unfold set_cache. rewrite lookup_insert_eq. intros [= <-]. by right.
Qed.

(** X6. An entry is used for [CACHE_TTL] seconds and no longer. When a request
    goes upstream and its payload is stored, the same request made again
    [CACHE_TTL] seconds or more after the store goes upstream again, and the
    object stored by the first request is no longer what the key refers to. *)
Theorem expired_entry_is_fetched_again
    (env : Env) (endpoint : string) (params : dict) (w : World)
    (j : json) (dt idle : Q) :
  API_KEY env ≠ EmptyString →
  cache_hit endpoint params w = false →
  upstream env (length (calls w)) endpoint (sent_params env params)
  = (Response 200 (inr j), dt) →
  (CACHE_TTL <= idle)%Q →
  let out1 := make_weather_request env endpoint params w in
  let out2 := make_weather_request env endpoint params (advance idle out1.2) in
  ∃ l, out1.1 = Return (Success l)
       ∧ calls out2.2
         = (calls w ++ [(endpoint, sent_params env params);
                        (endpoint, sent_params env params)])%list
       ∧ ∀ e, _cache out2.2 !! get_cache_key endpoint params = Some e → data e ≠ l.
Proof.
  intros Hk Hmiss Hup Hidle out1 out2. subst out1 out2.
  rewrite (make_weather_request_stores env endpoint params w j dt) by done.
  simpl. set (l := fresh (dom (heap w))).
  set (w2 := advance idle _).
  assert (Hstale : get_cached (clock w2) (get_cache_key endpoint params) (_cache w2)
                   = (None, delete (get_cache_key endpoint params) (_cache w2))).
  { apply (get_cached_stale _ _ _ {| data := l; timestamp := (clock w + dt)%Q |}).
    - apply lookup_insert_eq.
    - simpl. unfold CACHE_TTL in *. lra. }
  assert (Hmiss2 : cache_hit endpoint params w2 = false).
  { unfold cache_hit. by rewrite Hstale. }
  exists l. split; [done|].
  rewrite (make_weather_request_miss env endpoint params w2) by done.
  split.
  - rewrite fetch_calls. simpl. by rewrite <- app_assoc.
  - intros e He. apply fetch_key_entry in He as [He|He].
    + simpl in He. unfold cache_after_lookup in He. rewrite Hstale in He. simpl in He.
      by rewrite lookup_delete_eq in He.
    + rewrite He. simpl. intros Heq.
      apply (is_fresh (dom (<[l := j]> (heap w)))). rewrite Heq.
      apply elem_of_dom. rewrite lookup_insert_eq. eauto.
Qed.

Lemma expired_entry_is_fetched_again_witness :
  let env := env_with test_api_key (Response 200 (inr mock_weather_response)) in
  let out1 := make_weather_request env (BASE_URL +:+ "/weather") london_params empty_world in
  length (calls (make_weather_request env (BASE_URL +:+ "/weather") london_params
                   (advance 600 out1.2)).2) = 2%nat.
Proof.
  destruct (expired_entry_is_fetched_again
              (env_with test_api_key (Response 200 (inr mock_weather_response)))
              (BASE_URL +:+ "/weather") london_params empty_world
              mock_weather_response 0 600
              ltac:(discriminate) eq_refl eq_refl ltac:(apply Qltb_ge; reflexivity))
    as (l & _ & H & _).
  exact (f_equal length H).
Defined.

(** ** Distinct requests, distinct keys *)

Lemma append_cons (c : ascii) (s1 s2 : string) :
  String c s1 +:+ s2 = String c (s1 +:+ s2).
Proof. reflexivity. Qed.

Lemma append_nil (s : string) : EmptyString +:+ s = s.
Proof. reflexivity. Qed.

Lemma append_assoc (s1 s2 s3 : string) : (s1 +:+ s2) +:+ s3 = s1 +:+ (s2 +:+ s3).
Proof.
  induction s1 as [|c s1 IH]; [reflexivity|].
  rewrite !append_cons. f_equal. exact IH.
Qed.

Lemma quoted_append (a r : string) :
  Json.quoted a +:+ r = String dquote (a +:+ String dquote r).
Proof. unfold Json.quoted. by rewrite append_cons, append_assoc, append_cons, append_nil. Qed.

(** The text of a dict of two items whose keys are in order. *)
Lemma dumps_two (k1 k2 : string) (v1 v2 : json) :
  String.leb k1 k2 = true →
  Json.dumps (JDict [(k1, v1); (k2, v2)])
  = "{" +:+ ((Json.quoted (Json.escape_chars k1) +:+ ": " +:+ Json.dumps v1)
             +:+ ", " +:+ (Json.quoted (Json.escape_chars k2) +:+ ": " +:+ Json.dumps v2))
        +:+ "}".
Proof. intros H. cbn. rewrite H. reflexivity. Qed.

(** The requests [request_of] lists are the ones the tools make. *)
Lemma tools_make_their_requests (env : Env) (w : World) :
  (∀ location units,
     get_current_weather env location units w
     = request_then env (request_of (CurrentWeather location units)).1
         (request_of (CurrentWeather location units)).2 (current_weather_output env units) w)
  ∧ (∀ location units days,
     get_forecast env location units days w
     = request_then env (request_of (Forecast location units days)).1
         (request_of (Forecast location units days)).2 (forecast_output env units) w)
  ∧ (∀ query limit,
     search_location env query limit w
     = request_then env (request_of (SearchLocation query limit)).1
         (request_of (SearchLocation query limit)).2 (search_output query) w)
  ∧ (∀ latitude longitude units,
     get_weather_by_coordinates env latitude longitude units w
     = request_then env (request_of (ByCoordinates latitude longitude units)).1
         (request_of (ByCoordinates latitude longitude units)).2
         (coordinates_output env latitude longitude units) w)
  ∧ (∀ latitude longitude,
     get_air_quality env latitude longitude w
     = request_then env (request_of (AirQuality latitude longitude)).1
         (request_of (AirQuality latitude longitude)).2
         (air_quality_output env latitude longitude) w).
Proof. repeat split. Qed.

(** X8. A cache entry written for one tool is never read by another: requests
    of two different tools have different keys, whatever their arguments. *)
Theorem tools_have_disjoint_keys (c1 c2 : ToolCall) :
  key_of c1 = key_of c2 → same_tool c1 c2 = true.
Proof.
  intros H. destruct c1, c2; try reflexivity; exfalso; unfold key_of in H; simpl in H;
    first
      [ apply (f_equal (String.get 4)) in H; vm_compute in H; discriminate H
      | apply (f_equal (String.get 40)) in H; vm_compute in H; discriminate H
      | apply (f_equal (String.get 50)) in H; vm_compute in H; discriminate H ].
Qed.

Lemma tools_have_disjoint_keys_witness :
  same_tool (CurrentWeather "London,UK" "metric") (CurrentWeather "London,UK" "metric") = true.
Proof.
  exact (tools_have_disjoint_keys (CurrentWeather "London,UK" "metric")
           (CurrentWeather "London,UK" "metric") eq_refl).
Defined.

(** ** The comparison loop *)

(** The loop appends exactly one entry per location. *)
Lemma compare_loop_length (env : Env) (units : string) (locations : list string)
    (w : World) (cs : list json) :
  (compare_loop env units locations w).1 = Return cs → length cs = length locations.
Proof.
  revert w cs. induction locations as [|location rest IH]; intros w cs; simpl.
  - by intros [= <-].
  - destruct (make_weather_request env _ _ w) as [result w1].
    destruct (match result with
              | Return (Success l) => comparison_entry (deref w1 l)
              | Return (Failure error _) =>
                  Return (JDict [("location", JStr location); ("error", JStr error)])
              | Raise e => Raise e
              end) as [c|e]; [|done].
    specialize (IH w1). destruct (compare_loop env units rest w1) as [[cs'|e] w2]; simpl in *.
    + intros [= <-]. simpl. f_equal. by apply IH.
    + done.
Qed.

(** A request lengthens the upstream log by at most one GET, to its own
    endpoint. *)
Lemma make_weather_request_calls (env : Env) (endpoint : string) (params : dict) (w : World) :
  calls (make_weather_request env endpoint params w).2 = calls w
  ∨ calls (make_weather_request env endpoint params w).2
    = (calls w ++ [(endpoint, sent_params env params)])%list.
Proof.
  unfold make_weather_request.
  destruct (negb (truthy (JStr (API_KEY env)))); [by left|].
  destruct (get_cached _ _ _) as [cached c].
  assert (Hsent : calls (fetch env endpoint (get_cache_key endpoint params)
                           (dict_set "appid" (JStr (API_KEY env)) params) (with_cache c w)).2
                  = (calls w ++ [(endpoint, sent_params env params)])%list)
    by (by rewrite fetch_calls).
  destruct cached as [l|]; [|by right].
  destruct (truthy (deref (with_cache c w) l)); [|by right].
  left. by destruct (deref (with_cache c w) l).
Qed.

(** The loop sends at most one GET per location, each to the weather
    endpoint. *)
Lemma compare_loop_calls (env : Env) (units : string) (locations : list string) (w : World) :
  ∃ sent, calls (compare_loop env units locations w).2 = (calls w ++ sent)%list
          ∧ (length sent ≤ length locations)%nat
          ∧ Forall (λ c, c.1 = BASE_URL +:+ "/weather") sent.
Proof.
  revert w. induction locations as [|location rest IH]; intros w; simpl.
  - exists []. rewrite app_nil_r. split; [done|]. split; [simpl; lia | constructor].
  - pose proof (make_weather_request_calls env (BASE_URL +:+ "/weather")
                  [("q", JStr location); ("units", JStr units)] w) as Hone.
    destruct (make_weather_request env _ _ w) as [result w1]. simpl in Hone.
    assert (∃ first, calls w1 = (calls w ++ first)%list ∧ (length first ≤ 1)%nat
                     ∧ Forall (λ c, c.1 = BASE_URL +:+ "/weather") first)
      as (first & Hfirst & Hlen & Hall).
    { destruct Hone as [Hone|Hone].
      - exists []. rewrite app_nil_r. split; [done|]. split; [simpl; lia | constructor].
      - eexists [_]. split; [exact Hone|]. split; [done|]. by repeat constructor. }
    destruct (match result with
              | Return (Success l) => comparison_entry (deref w1 l)
              | Return (Failure error _) =>
                  Return (JDict [("location", JStr location); ("error", JStr error)])
              | Raise e => Raise e
              end) as [c|e].
    + destruct (IH w1) as (sent & Hsent & Hlen' & Hall').
      destruct (compare_loop env units rest w1) as [more w2]. simpl in *.
      exists (first ++ sent)%list. rewrite Hsent, Hfirst, <- app_assoc.
      split; [done|]. split; [rewrite length_app; lia|]. by apply Forall_app.
    + exists first. simpl. split; [done|]. split; [lia | done].
Qed.

(** X9. A comparison that is refused (fewer than 2 or more than 5 locations)
    sends nothing upstream and leaves the state as it is. Any comparison
    sends at most one GET per location, each to the weather endpoint; when it
    returns a list of comparisons, the list has exactly one entry per
    location: a location whose request fails gets an entry too. *)
Theorem compare_weather_one_entry_per_location
    (env : Env) (locations : list string) (units : string) (w : World) :
  let out := compare_weather env locations units w in
  ((length locations < 2 ∨ 5 < length locations)%nat → out.2 = w ∧ calls out.2 = calls w)
  ∧ (∃ sent, calls out.2 = (calls w ++ sent)%list
             ∧ (length sent ≤ length locations)%nat
             ∧ Forall (λ c, c.1 = BASE_URL +:+ "/weather") sent)
  ∧ ∀ r cs, out.1 = Return r → path ["locations"] r = Some (JList cs) →
      length cs = length locations.
Proof.
  simpl. unfold compare_weather.
  destruct (length locations <? 2)%nat eqn:E1.
  { split; [done|]. split; [|by intros r cs [= <-]].
    exists []. rewrite app_nil_r. split; [done|]. split; [simpl; lia | constructor]. }
  destruct (5 <? length locations)%nat eqn:E2.
  { split; [done|]. split; [|by intros r cs [= <-]].
    exists []. rewrite app_nil_r. split; [done|]. split; [simpl; lia | constructor]. }
  apply Nat.ltb_ge in E1, E2. split; [intros [?|?]; lia|].
  pose proof (compare_loop_calls env units locations w) as Hcalls.
  pose proof (compare_loop_length env units locations w) as Hlen.
  destruct (compare_loop env units locations w) as [[cs|e] w']; simpl in *.
  - split; [done|]. intros r cs' [= <-] [= <-]. by apply Hlen.
  - split; [done|]. by intros r cs' [=].
Qed.

Lemma compare_weather_one_entry_per_location_witness :
  length [JDict [("location", JStr "London,UK"); ("error", JStr "Location not found")];
          JDict [("location", JStr "Atlantis"); ("error", JStr "Location not found")];
          JDict [("location", JStr "Paris,FR"); ("error", JStr "Location not found")]]
  = length ["London,UK"; "Atlantis"; "Paris,FR"].
Proof.
  exact (proj2 (proj2 (compare_weather_one_entry_per_location
                  (env_with test_api_key (Response 404 (inl "not json")))
                  ["London,UK"; "Atlantis"; "Paris,FR"] "metric" empty_world))
           (JDict [
              ("success", JBool true);
              ("locations",
               JList [JDict [("location", JStr "London,UK"); ("error", JStr "Location not found")];
                      JDict [("location", JStr "Atlantis"); ("error", JStr "Location not found")];
                      JDict [("location", JStr "Paris,FR"); ("error", JStr "Location not found")]]);
              ("units", JStr "metric");
              ("comparison_time", JStr "2023-10-16T09:53:20")])
           _ eq_refl eq_refl).
Defined.

(** ** The marker and the answers of the tools *)

Lemma py_get_marker (d : dict) (k : string) (dflt v : json) :
  k ≠ "_from_cache" →
  py_get (JDict (dict_set "_from_cache" v d)) k dflt = py_get (JDict d) k dflt.
Proof. intros Hk. simpl. by rewrite dict_lookup_set_ne. Qed.

(** A request made twice through a tool: the payload is reshaped the first
    time, the marked payload the second time, and the second time nothing is
    sent upstream. *)
Lemma request_then_repeated (env : Env) (endpoint : string) (params : dict)
    (output : json → PyResult json) (w : World) (d : dict) (dt idle : Q) :
  API_KEY env ≠ EmptyString →
  cache_hit endpoint params w = false →
  upstream env (length (calls w)) endpoint (sent_params env params)
  = (Response 200 (inr (JDict d)), dt) →
  d ≠ [] →
  (idle < CACHE_TTL)%Q →
  let out1 := request_then env endpoint params output w in
  let out2 := request_then env endpoint params output (advance idle out1.2) in
  out1.1 = output (JDict d)
  ∧ out2.1 = output (JDict (dict_set "_from_cache" (JBool true) d))
  ∧ calls out2.2 = calls out1.2.
Proof.
  intros Hk Hmiss Hup Hne Hidle out1 out2. subst out1 out2. unfold request_then.
  rewrite (make_weather_request_stores env endpoint params w (JDict d) dt) by done.
  simpl. set (l := fresh (dom (heap w))).
  rewrite (make_weather_request_hit env endpoint params _ l d); try done.
  - unfold deref. simpl. rewrite !lookup_insert_eq. done.
  - simpl. rewrite (get_cached_fresh _ _ _ {| data := l; timestamp := (clock w + dt)%Q |});
      [done | apply lookup_insert_eq |].
    simpl. unfold CACHE_TTL in *. lra.
  - simpl. apply lookup_insert_eq.
Qed.

(** The reshaping of an object does not look at the marker. *)
Lemma outputs_ignore_marker (env : Env) (d : dict) (v : json) :
  (∀ units, current_weather_output env units (JDict (dict_set "_from_cache" v d))
            = current_weather_output env units (JDict d))
  ∧ (∀ units, forecast_output env units (JDict (dict_set "_from_cache" v d))
              = forecast_output env units (JDict d))
  ∧ (∀ latitude longitude units,
       coordinates_output env latitude longitude units (JDict (dict_set "_from_cache" v d))
       = coordinates_output env latitude longitude units (JDict d))
  ∧ (∀ latitude longitude,
       air_quality_output env latitude longitude (JDict (dict_set "_from_cache" v d))
       = air_quality_output env latitude longitude (JDict d))
  ∧ comparison_entry (JDict (dict_set "_from_cache" v d)) = comparison_entry (JDict d).
Proof.
  repeat split; intros;
    unfold current_weather_output, forecast_output, coordinates_output, air_quality_output,
      comparison_entry, get2, get3, weather0;
    by rewrite !py_get_marker by discriminate.
Qed.

Lemma dict_set_nonempty (k : string) (v : json) (d : dict) : dict_set k v d ≠ [].
Proof. destruct d as [|[k' v'] d]; simpl; [done|]. by destruct (decide (k' = k)). Qed.

(** The reshaping of a search whose payload is a non-empty object fails on
    the first key, with or without the marker. *)
Lemma search_output_object (query : string) (d : dict) :
  d ≠ [] → search_output query (JDict d) = Raise AttributeError.
Proof. destruct d as [|[k v] d]; [done|]. reflexivity. Qed.

(** X10. A tool called twice with the same arguments gives the same answer twice.
    When the first call goes upstream and gets a non-empty JSON object, the
    same call made less than [CACHE_TTL] seconds after the store sends
    nothing upstream and returns what the first call returned: the marker
    [_from_cache] does not show in the output of any tool. *)
Theorem repeated_tool_call_same_answer
    (env : Env) (c : ToolCall) (w : World) (d : dict) (dt idle : Q) :
  API_KEY env ≠ EmptyString →
  cache_hit (request_of c).1 (request_of c).2 w = false →
  upstream env (length (calls w)) (request_of c).1 (sent_params env (request_of c).2)
  = (Response 200 (inr (JDict d)), dt) →
  d ≠ [] →
  (idle < CACHE_TTL)%Q →
  let out1 := run_tool env c w in
  let out2 := run_tool env c (advance idle out1.2) in
  out2.1 = out1.1 ∧ calls out2.2 = calls out1.2.
Proof.
  intros Hk Hmiss Hup Hne Hidle out1 out2. subst out1 out2.
  destruct (outputs_ignore_marker env d (JBool true)) as (Hcur & Hfor & Hcoord & Hair & _).
  destruct c as [location units|location units days|query limit
                |latitude longitude units|latitude longitude]; simpl in *.
  - destruct (request_then_repeated env _ _ (current_weather_output env units)
                w d dt idle Hk Hmiss Hup Hne Hidle) as (H1 & H2 & H3).
    unfold get_current_weather. by rewrite H1, H2, Hcur.
  - destruct (request_then_repeated env _ _ (forecast_output env units)
                w d dt idle Hk Hmiss Hup Hne Hidle) as (H1 & H2 & H3).
    unfold get_forecast. by rewrite H1, H2, Hfor.
  - destruct (request_then_repeated env _ _ (search_output query)
                w d dt idle Hk Hmiss Hup Hne Hidle) as (H1 & H2 & H3).
    unfold search_location. rewrite H1, H2.
    rewrite (search_output_object query d Hne).
    split; [|done]. apply search_output_object. apply dict_set_nonempty.
  - destruct (request_then_repeated env _ _ (coordinates_output env latitude longitude units)
                w d dt idle Hk Hmiss Hup Hne Hidle) as (H1 & H2 & H3).
    unfold get_weather_by_coordinates. by rewrite H1, H2, Hcoord.
  - destruct (request_then_repeated env _ _ (air_quality_output env latitude longitude)
                w d dt idle Hk Hmiss Hup Hne Hidle) as (H1 & H2 & H3).
    unfold get_air_quality. by rewrite H1, H2, Hair.
Qed.

Lemma repeated_tool_call_same_answer_witness :
  let env := env_with test_api_key (Response 200 (inr mock_weather_response)) in
  let out1 := run_tool env (CurrentWeather "London,UK" "metric") empty_world in
  let out2 := run_tool env (CurrentWeather "London,UK" "metric") (advance 599 out1.2) in
  out2.1 = out1.1 ∧ calls out2.2 = calls out1.2.
Proof.
  exact (repeated_tool_call_same_answer
           (env_with test_api_key (Response 200 (inr mock_weather_response)))
           (CurrentWeather "London,UK" "metric") empty_world
           [("name", JStr "London");
            ("sys", JDict [("country", JStr "GB"); ("sunrise", JInt 1697440920);
                           ("sunset", JInt 1697480100)]);
            ("coord", JDict [("lat", JFloat "51.5074"); ("lon", JFloat "-0.1278")]);
            ("main", JDict [("temp", JFloat "15.5"); ("feels_like", JFloat "14.2");
                            ("temp_min", JFloat "13.0"); ("temp_max", JFloat "17.0");
                            ("pressure", JInt 1013); ("humidity", JInt 72)]);
            ("weather", JList [JDict [("description", JStr "partly cloudy");
                                      ("icon", JStr "02d")]]);
            ("wind", JDict [("speed", JFloat "5.2"); ("deg", JInt 230)]);
            ("clouds", JDict [("all", JInt 40)]);
            ("visibility", JInt 10000);
            ("dt", JInt 1697450000)] 0 599
           ltac:(discriminate) eq_refl eq_refl ltac:(discriminate)
           ltac:(apply Qltb_lt; reflexivity)).
Defined.

(** ** Searches *)

Lemma location_item_object (d : dict) : ∃ y, location_item (JDict d) = Return y.
Proof. eexists. reflexivity. Qed.

Lemma for_each_location_items (xs : list json) :
  Forall is_object xs →
  ∃ ys, for_each location_item xs = Return ys ∧ length ys = length xs.
Proof.
  induction 1 as [|x xs Hx _ (ys & Hys & Hlen)].
  - by exists [].
  - destruct x; try done. destruct (location_item_object items) as [y Hy].
    exists (y :: ys). split; [|simpl; by rewrite Hlen].
    change (for_each location_item (JDict items :: xs))
      with (y' ← location_item (JDict items); ys' ← for_each location_item xs;
            Return (y' :: ys')).
    by rewrite Hy, Hys.
Qed.

(** X11. A search that goes upstream and gets a list of objects returns one result
    per object, and ["count"] is their number; an empty list gives no results
    and a count of 0. *)
Theorem search_location_counts_results
    (env : Env) (query : string) (limit : Z) (w : World) (xs : list json) (dt : Q) :
  API_KEY env ≠ EmptyString →
  cache_hit (GEO_URL +:+ "/direct") [("q", JStr query); ("limit", JInt (Z.min limit 10))] w
  = false →
  upstream env (length (calls w)) (GEO_URL +:+ "/direct")
    (sent_params env [("q", JStr query); ("limit", JInt (Z.min limit 10))])
  = (Response 200 (inr (JList xs)), dt) →
  Forall is_object xs →
  ∃ results,
    (search_location env query limit w).1
    = Return (JDict [("success", JBool true);
                     ("query", JStr query);
                     ("results", JList results);
                     ("count", JInt (Z.of_nat (length xs)))])
    ∧ length results = length xs.
Proof.
  intros Hk Hmiss Hup Hxs. unfold search_location, request_then.
  rewrite (make_weather_request_stores env _ _ w (JList xs) dt) by done.
  unfold deref. simpl. rewrite lookup_insert_eq. simpl.
  destruct (for_each_location_items xs Hxs) as (ys & Hys & Hlen).
  unfold search_output. simpl. rewrite Hys. simpl.
  exists ys. by rewrite Hlen.
Qed.

Lemma search_location_counts_results_witness :
  ∃ results,
    (search_location
       (env_with test_api_key
          (Response 200 (inr (JList [JDict [("name", JStr "Springfield"); ("country", JStr "US");
                                            ("state", JStr "Illinois");
                                            ("lat", JFloat "39.7817");
                                            ("lon", JFloat "-89.6501")]]))))
       "Springfield" 5 empty_world).1
    = Return (JDict [("success", JBool true);
                     ("query", JStr "Springfield");
                     ("results", JList results);
                     ("count", JInt 1)])
    ∧ length results = 1%nat.
Proof.
  refine (search_location_counts_results _ "Springfield" 5 empty_world
            [JDict [("name", JStr "Springfield"); ("country", JStr "US");
                    ("state", JStr "Illinois");
                    ("lat", JFloat "39.7817"); ("lon", JFloat "-89.6501")]] 0 _ _ _ _).
  - discriminate.
  - reflexivity.
  - reflexivity.
  - repeat constructor.
Defined.

(** A hit on a payload that is true but not a dict raises and changes
    nothing. *)
Lemma make_weather_request_hit_unchanged (env : Env) (endpoint : string) (params : dict)
    (w : World) (l : loc) :
  API_KEY env ≠ EmptyString →
  (get_cached (clock w) (get_cache_key endpoint params) (_cache w)).1 = Some l →
  truthy (deref w l) = true → (∀ d, deref w l ≠ JDict d) →
  make_weather_request env endpoint params w = (Raise TypeError, w).
Proof.
  intros Hk Hl Ht Hnd. unfold make_weather_request.
  rewrite api_key_truthy by done. simpl.
  unfold get_cached in *. destruct (_cache w !! _) as [e|]; [|done].
  destruct (Qltb _ _); simpl in *; [|done]. injection Hl as <-.
  change (deref (with_cache (_cache w) w) (data e)) with (deref w (data e)). rewrite Ht.
  rewrite with_cache_same.
  destruct (deref w (data e)); try done. by destruct (Hnd items).
Qed.

(** X12. A search that found something cannot be repeated while its entry is
    fresh. When a search goes upstream and gets a non-empty list, the same
    search made less than [CACHE_TTL] seconds after the store raises
    [TypeError] (the marker cannot be set in a list), sends nothing upstream
    and leaves the state as it is. *)
Theorem repeated_search_raises
    (env : Env) (query : string) (limit : Z) (w : World)
    (x : json) (xs : list json) (dt idle : Q) :
  API_KEY env ≠ EmptyString →
  cache_hit (GEO_URL +:+ "/direct") [("q", JStr query); ("limit", JInt (Z.min limit 10))] w
  = false →
  upstream env (length (calls w)) (GEO_URL +:+ "/direct")
    (sent_params env [("q", JStr query); ("limit", JInt (Z.min limit 10))])
  = (Response 200 (inr (JList (x :: xs))), dt) →
  (idle < CACHE_TTL)%Q →
  let out1 := search_location env query limit w in
  search_location env query limit (advance idle out1.2)
  = (Raise TypeError, advance idle out1.2).
Proof.
  intros Hk Hmiss Hup Hidle out1. subst out1. unfold search_location, request_then.
  rewrite (make_weather_request_stores env _ _ w (JList (x :: xs)) dt) by done.
  simpl. set (l := fresh (dom (heap w))). set (w2 := advance idle _).
  rewrite (make_weather_request_hit_unchanged env _ _ w2 l); try done.
  - simpl. rewrite (get_cached_fresh _ _ _ {| data := l; timestamp := (clock w + dt)%Q |});
      [done | apply lookup_insert_eq |].
    simpl. unfold CACHE_TTL in *. lra.
  - unfold deref. simpl. by rewrite lookup_insert_eq.
  - unfold deref. simpl. by rewrite lookup_insert_eq.
Qed.

Lemma repeated_search_raises_witness :
  let env := env_with test_api_key
               (Response 200 (inr (JList [JDict [("name", JStr "Springfield")]]))) in
  let out1 := search_location env "Springfield" 5 empty_world in
  search_location env "Springfield" 5 (advance 1 out1.2) = (Raise TypeError, advance 1 out1.2).
Proof.
  exact (repeated_search_raises
           (env_with test_api_key (Response 200 (inr (JList [JDict [("name", JStr "Springfield")]]))))
           "Springfield" 5 empty_world (JDict [("name", JStr "Springfield")]) [] 0 1
           ltac:(discriminate) eq_refl eq_refl ltac:(apply Qltb_lt; reflexivity)).
Defined.

(** The lookup of a request misses when the payload its key refers to is
    false. *)
Lemma cache_hit_falsy (endpoint : string) (params : dict) (w : World) (e : CacheEntry) :
  _cache w !! get_cache_key endpoint params = Some e →
  truthy (deref w (data e)) = false →
  cache_hit endpoint params w = false.
Proof.
  intros He Hf. unfold cache_hit, get_cached. rewrite He.
  by destruct (Qltb _ _).
Qed.

(** X13. A stored payload that is false is never served. When a request goes
    upstream and gets an empty list, an empty object, [null], [0], [false] or
    an empty text, the payload is stored, and the same request made again, at
    any later time, goes upstream again. *)
Theorem falsy_payload_is_fetched_again
    (env : Env) (endpoint : string) (params : dict) (w : World)
    (j : json) (dt idle : Q) :
  API_KEY env ≠ EmptyString →
  cache_hit endpoint params w = false →
  upstream env (length (calls w)) endpoint (sent_params env params)
  = (Response 200 (inr j), dt) →
  truthy j = false →
  let out1 := make_weather_request env endpoint params w in
  let out2 := make_weather_request env endpoint params (advance idle out1.2) in
  (∃ l, out1.1 = Return (Success l)
        ∧ heap out1.2 !! l = Some j
        ∧ ∃ e, _cache out1.2 !! get_cache_key endpoint params = Some e ∧ data e = l)
  ∧ calls out2.2
    = (calls w ++ [(endpoint, sent_params env params); (endpoint, sent_params env params)])%list.
Proof.
  intros Hk Hmiss Hup Hfalse out1 out2. subst out1 out2.
  rewrite (make_weather_request_stores env endpoint params w j dt) by done.
  simpl. set (l := fresh (dom (heap w))). split.
  { exists l. split; [done|]. split; [apply lookup_insert_eq|].
    eexists. split; [apply lookup_insert_eq | done]. }
  rewrite make_weather_request_miss; [|done|].
  - rewrite fetch_calls. simpl. by rewrite <- app_assoc.
  - apply (cache_hit_falsy _ _ _ {| data := l; timestamp := (clock w + dt)%Q |}).
    + simpl. apply lookup_insert_eq.
    + unfold deref. simpl. by rewrite lookup_insert_eq.
Qed.

Lemma falsy_payload_is_fetched_again_witness :
  let env := env_with test_api_key (Response 200 (inr (JList []))) in
  let out1 := make_weather_request env (GEO_URL +:+ "/direct")
                [("q", JStr "Atlantis"); ("limit", JInt 5)] empty_world in
  length (calls (make_weather_request env (GEO_URL +:+ "/direct")
                   [("q", JStr "Atlantis"); ("limit", JInt 5)] (advance 1 out1.2)).2) = 2%nat.
Proof.
  pose proof (falsy_payload_is_fetched_again
                (env_with test_api_key (Response 200 (inr (JList []))))
                (GEO_URL +:+ "/direct") [("q", JStr "Atlantis"); ("limit", JInt 5)]
                empty_world (JList []) 0 1
                ltac:(discriminate) eq_refl eq_refl eq_refl) as [_ H].
  exact (f_equal length H).
Defined.

(** ** What the tools ask for *)

(** X14. The forecast and the search cap what they ask for. When the request goes
    upstream, the forecast asks for [8 * days] intervals and never for more
    than 40, the search for [limit] results and never for more than 10, and
    both requests carry the API key. There is no lower cap: a [days] or a
    [limit] of 0 or less is sent as it is. *)
Theorem forecast_and_search_requests_are_capped (env : Env) (w : World) :
  API_KEY env ≠ EmptyString →
  (∀ location units days,
     cache_hit (BASE_URL +:+ "/forecast")
       [("q", JStr location); ("units", JStr units); ("cnt", JInt (Z.min days 5 * 8))] w
     = false →
     ∃ cnt,
       calls (get_forecast env location units days w).2
       = (calls w ++ [(BASE_URL +:+ "/forecast",
                       [("q", JStr location); ("units", JStr units); ("cnt", JInt cnt);
                        ("appid", JStr (API_KEY env))])])%list
       ∧ cnt ≤ 40 ∧ (days ≤ 5 → cnt = 8 * days))
  ∧ (∀ query limit,
     cache_hit (GEO_URL +:+ "/direct")
       [("q", JStr query); ("limit", JInt (Z.min limit 10))] w = false →
     ∃ n,
       calls (search_location env query limit w).2
       = (calls w ++ [(GEO_URL +:+ "/direct",
                       [("q", JStr query); ("limit", JInt n);
                        ("appid", JStr (API_KEY env))])])%list
       ∧ n ≤ 10 ∧ (limit ≤ 10 → n = limit)).
Proof.
  intros Hk. split.
  - intros location units days Hmiss. exists (Z.min days 5 * 8).
    unfold get_forecast, request_then.
    rewrite make_weather_request_miss by done.
    pose proof (fetch_calls env (BASE_URL +:+ "/forecast")
                  (get_cache_key (BASE_URL +:+ "/forecast")
                     [("q", JStr location); ("units", JStr units);
                      ("cnt", JInt (Z.min days 5 * 8))])
                  (sent_params env [("q", JStr location); ("units", JStr units);
                                    ("cnt", JInt (Z.min days 5 * 8))])
                  (with_cache (cache_after_lookup (BASE_URL +:+ "/forecast")
                     [("q", JStr location); ("units", JStr units);
                      ("cnt", JInt (Z.min days 5 * 8))] w) w)) as Hcalls.
    destruct (fetch _ _ _ _ _) as [[[l|error sc]|e] w']; simpl in *;
      (split; [exact Hcalls|]); lia.
  - intros query limit Hmiss. exists (Z.min limit 10).
    unfold search_location, request_then.
    rewrite make_weather_request_miss by done.
    pose proof (fetch_calls env (GEO_URL +:+ "/direct")
                  (get_cache_key (GEO_URL +:+ "/direct")
                     [("q", JStr query); ("limit", JInt (Z.min limit 10))])
                  (sent_params env [("q", JStr query); ("limit", JInt (Z.min limit 10))])
                  (with_cache (cache_after_lookup (GEO_URL +:+ "/direct")
                     [("q", JStr query); ("limit", JInt (Z.min limit 10))] w) w)) as Hcalls.
    destruct (fetch _ _ _ _ _) as [[[l|error sc]|e] w']; simpl in *;
      (split; [exact Hcalls|]); lia.
Qed.

Lemma forecast_and_search_requests_are_capped_witness :
  ∃ cnt,
    calls (get_forecast (env_with test_api_key TimeoutException) "Paris,FR" "metric" 7
             empty_world).2
    = [(BASE_URL +:+ "/forecast",
        [("q", JStr "Paris,FR"); ("units", JStr "metric"); ("cnt", JInt cnt);
         ("appid", JStr test_api_key)])]
    ∧ cnt ≤ 40 ∧ (7 ≤ 5 → cnt = 8 * 7).
Proof.
  exact (proj1 (forecast_and_search_requests_are_capped
                  (env_with test_api_key TimeoutException) empty_world ltac:(discriminate))
           "Paris,FR" "metric" 7 eq_refl).
Defined.

(** ** Air quality *)

(** X15. The air-quality tool reads the first element of ["list"] only. Its index
    is that element's [main.aqi], and the level names the index: 1 to 5 are
    Good, Fair, Moderate, Poor and Very Poor, any other integer is Unknown. *)
Theorem air_quality_names_the_index
    (env : Env) (latitude longitude : string) (d item main : dict)
    (rest : list json) (n : Z) :
  dict_lookup "list" d = Some (JList (JDict item :: rest)) →
  dict_lookup "main" item = Some (JDict main) →
  dict_lookup "aqi" main = Some (JInt n) →
  time_readable env "dt" item →
  ∃ out level,
    air_quality_output env latitude longitude (JDict d) = Return out
    ∧ path ["air_quality_index"] out = Some (JInt n)
    ∧ path ["aqi_level"] out = Some (JStr level)
    ∧ path ["coordinates"; "latitude"] out = Some (JFloat latitude)
    ∧ path ["coordinates"; "longitude"] out = Some (JFloat longitude)
    ∧ (n = 1 → level = "Good") ∧ (n = 2 → level = "Fair") ∧ (n = 3 → level = "Moderate")
    ∧ (n = 4 → level = "Poor") ∧ (n = 5 → level = "Very Poor")
    ∧ (n < 1 ∨ 5 < n → level = "Unknown").
Proof.
  intros Hlist Hmain Haqi [iso Hdt].
  unfold air_quality_output, get2. simpl. rewrite Hlist. simpl. rewrite Hmain. simpl.
  rewrite Haqi. simpl. rewrite Hdt. simpl.
  eexists. eexists. split; [reflexivity|]. simpl.
  do 4 (split; [reflexivity|]).
  repeat split; intros; subst; try reflexivity.
  repeat (match goal with |- context [if (?a =? ?b) then _ else _] =>
            destruct (Z.eqb_spec a b); [lia|] end).
  reflexivity.
Qed.

Lemma air_quality_names_the_index_witness :
  ∃ out level,
    air_quality_output (env_with test_api_key TimeoutException) "51.5" "-0.12"
      (JDict [("list", JList [JDict [("main", JDict [("aqi", JInt 2)]);
                                     ("components", JDict [("co", JFloat "201.9")]);
                                     ("dt", JInt 1697450000)]])]) = Return out
    ∧ path ["air_quality_index"] out = Some (JInt 2)
    ∧ path ["aqi_level"] out = Some (JStr level)
    ∧ level = "Fair".
Proof.
  destruct (air_quality_names_the_index (env_with test_api_key TimeoutException)
              "51.5" "-0.12"
              [("list", JList [JDict [("main", JDict [("aqi", JInt 2)]);
                                      ("components", JDict [("co", JFloat "201.9")]);
                                      ("dt", JInt 1697450000)]])]
              [("main", JDict [("aqi", JInt 2)]);
               ("components", JDict [("co", JFloat "201.9")]);
               ("dt", JInt 1697450000)]
              [("aqi", JInt 2)] [] 2 eq_refl eq_refl eq_refl)
    as (out & level & Hout & Hidx & Hlevel & _ & _ & _ & Hfair & _).
  - eexists. reflexivity.
  - exists out, level. repeat split; try assumption. by apply Hfair.
Defined.

(** ** One key, one request *)

(** A text is cut in one way only at a character it does not contain. *)
Lemma cut_at (c : ascii) (s1 s2 r1 r2 : string) :
  all_chars (λ a, negb (Ascii.eqb a c)) s1 = true →
  all_chars (λ a, negb (Ascii.eqb a c)) s2 = true →
  s1 +:+ String c r1 = s2 +:+ String c r2 →
  s1 = s2 ∧ r1 = r2.
Proof.
  revert s2. induction s1 as [|a1 s1 IH]; intros [|a2 s2]; simpl;
    rewrite ?append_cons, ?append_nil; intros H1 H2 H.
  - by injection H as ->.
  - injection H as <- _. by rewrite Ascii.eqb_refl in H2.
  - injection H as -> _. by rewrite Ascii.eqb_refl in H1.
  - apply andb_true_iff in H1 as [_ H1]. apply andb_true_iff in H2 as [_ H2].
    injection H as -> H. by destruct (IH s2 H1 H2 H) as [-> ->].
Qed.

Lemma all_chars_weaken (P Q : ascii → bool) (s : string) :
  (∀ a, P a = true → Q a = true) → all_chars P s = true → all_chars Q s = true.
Proof.
  intros HPQ. induction s as [|a s IH]; simpl; [done|].
  intros [Ha Hs]%andb_true_iff. by rewrite (HPQ a Ha), IH.
Qed.

Lemma uint_chars (d : Decimal.uint) :
  all_chars is_int_char (NilEmpty.string_of_uint d) = true.
Proof. induction d; simpl; [done | by rewrite IHd ..]. Qed.

Lemma str_of_int_chars (n : Z) : all_chars is_int_char (str_of_int n) = true.
Proof.
  unfold str_of_int.
  destruct (Z.to_int n) as [d|d]; simpl; destruct d; simpl; try done;
    by rewrite uint_chars.
Qed.

(** The text of an int has no comma and no brace. *)
Lemma str_of_int_lacks (c : ascii) (n : Z) :
  is_int_char c = false → all_chars (λ a, negb (Ascii.eqb a c)) (str_of_int n) = true.
Proof.
  intros Hc. apply (all_chars_weaken is_int_char); [|apply str_of_int_chars].
  intros a Ha. destruct (Ascii.eqb_spec a c) as [->|]; [congruence | done].
Qed.

(** [int(str(n)) == n] *)
Lemma int_of_str_of_int (n : Z) : int_of_str (str_of_int n) = Some n.
Proof.
  unfold int_of_str, str_of_int. rewrite NilZero.isi.
  - simpl. by rewrite DecimalZ.of_to.
  - destruct n; simpl; try discriminate. intros [= H]. by apply Unsigned.to_uint_nonnil in H.
  - destruct n; simpl; try discriminate. intros [= H]. by apply Unsigned.to_uint_nonnil in H.
Qed.

Lemma str_of_int_inj (n1 n2 : Z) : str_of_int n1 = str_of_int n2 → n1 = n2.
Proof.
  intros H. apply (f_equal int_of_str) in H. rewrite !int_of_str_of_int in H. congruence.
Qed.

Lemma float_char_not_separator (c a : ascii) :
  c = ","%char ∨ c = "}"%char → is_float_char a = true → negb (Ascii.eqb a c) = true.
Proof.
  intros [-> | ->]; destruct a as [[] [] [] [] [] [] [] []]; vm_compute; congruence.
Qed.

(** The text of a float has no comma and no brace. *)
Lemma floatstr_lacks (c : ascii) (r : string) :
  c = ","%char ∨ c = "}"%char →
  all_chars is_float_char r = true →
  all_chars (λ a, negb (Ascii.eqb a c)) (Json.floatstr r) = true.
Proof.
  intros Hc Hr. unfold Json.floatstr.
  repeat case_match; try (destruct Hc as [-> | ->]; reflexivity).
  apply (all_chars_weaken is_float_char); [|done].
  intros a. by apply float_char_not_separator.
Qed.

Lemma floatstr_inj (r1 r2 : string) :
  all_chars is_float_char r1 = true → all_chars is_float_char r2 = true →
  Json.floatstr r1 = Json.floatstr r2 → r1 = r2.
Proof.
  unfold Json.floatstr. intros H1 H2.
  repeat (match goal with
          | |- context [String.eqb ?a ?b] => destruct (String.eqb_spec a b)
          end); subst; try done; intros H; subst; discriminate.
Qed.

Ltac norm_text H := rewrite ?append_assoc, ?append_cons, ?append_nil in H.
Ltac cut_int H :=
  apply cut_at in H as [?%str_of_int_inj H]; [|by apply str_of_int_lacks..].
Ltac cut_float H :=
  apply cut_at in H as [?%floatstr_inj H];
  [subst | done.. | by apply floatstr_lacks; auto | by apply floatstr_lacks; auto].

(** [escape_code_point] can be read back: the digits of [hex4], the two
    surrogates of a code point above the basic plane, then the code point. *)

Lemma hex_value_digit (k : N) :
  (k < 16)%N → Unicode.hex_value (Json.hex_digit k) = Some k.
Proof.
  intros Hk.
  assert (k = 0 ∨ k = 1 ∨ k = 2 ∨ k = 3 ∨ k = 4 ∨ k = 5 ∨ k = 6 ∨ k = 7 ∨ k = 8 ∨ k = 9
          ∨ k = 10 ∨ k = 11 ∨ k = 12 ∨ k = 13 ∨ k = 14 ∨ k = 15)%N as H by lia.
  repeat (destruct H as [->|H]; [reflexivity|]). by subst.
Qed.

Lemma read_hex4_hex4 (n : N) (r : string) :
  (n < 65536)%N → Unicode.read_hex4 (Unicode.hex4 n +:+ r) = Some (n, r).
Proof.
  intros Hn. unfold Unicode.hex4. rewrite !append_cons, append_nil.
  unfold Unicode.read_hex4.
  rewrite !hex_value_digit.
  - f_equal. f_equal.
    pose proof (N.div_mod n 4096). pose proof (N.div_mod n 256). pose proof (N.div_mod n 16).
    pose proof (N.div_mod (n / 256) 16). pose proof (N.div_mod (n / 16) 16).
    pose proof (N.Div0.div_div n 16 16). pose proof (N.Div0.div_div n 256 16).
    change (16 * 16)%N with 256%N in *. change (256 * 16)%N with 4096%N in *.
    pose proof (N.mod_upper_bound (n / 4096) 16).
    lia.
  - apply N.mod_upper_bound. lia.
  - apply N.mod_upper_bound. lia.
  - apply N.mod_upper_bound. lia.
  - apply N.Div0.div_lt_upper_bound. lia.
Qed.

Lemma high_surrogate (v : N) :
  (v < 1048576)%N → N.lor 55296 (N.land (N.shiftr v 10) 1023) = (55296 + v / 1024)%N.
Proof.
  intros Hv.
  assert (N.land 55296 (N.land (N.shiftr v 10) 1023) = 0%N) as Hdisj.
  { rewrite (N.land_comm (N.shiftr v 10)), N.land_assoc. reflexivity. }
  rewrite <- N.lxor_lor, <- N.add_nocarry_lxor by exact Hdisj.
  change 1023%N with (N.ones 10). rewrite N.land_ones, N.shiftr_div_pow2.
  change (2 ^ 10)%N with 1024%N. rewrite N.mod_small; [done|].
  apply N.Div0.div_lt_upper_bound. lia.
Qed.

Lemma low_surrogate (v : N) :
  N.lor 56320 (N.land v 1023) = (56320 + v mod 1024)%N.
Proof.
  assert (N.land 56320 (N.land v 1023) = 0%N) as Hdisj.
  { rewrite (N.land_comm v), N.land_assoc. reflexivity. }
  rewrite <- N.lxor_lor, <- N.add_nocarry_lxor by exact Hdisj.
  change 1023%N with (N.ones 10). by rewrite N.land_ones.
Qed.

Lemma unescape_escape_code_point (n : N) (r : string) :
  Unicode.code_point_ok n →
  Unicode.unescape_code_point (Unicode.escape_code_point n +:+ r) = Some (n, r).
Proof.
  intros [Hmax Hsur]. unfold Unicode.escape_code_point.
  repeat (match goal with
          | |- context [if (n =? ?k)%N then _ else _] =>
              destruct (N.eqb_spec n k); [subst; reflexivity|]
          end).
  destruct ((32 <=? n)%N && (n <=? 126)%N) eqn:Hprint.
  { apply andb_true_iff in Hprint as [H32%N.leb_le H126%N.leb_le].
    rewrite append_cons, append_nil. unfold Unicode.unescape_code_point.
    rewrite N_ascii_embedding by lia.
    destruct (N.eqb_spec n 92); [done|]. destruct (N.eqb_spec n 34); [done|]. done. }
  destruct (N.ltb_spec n 65536) as [Hbmp|Hsup].
  - rewrite !append_cons. unfold Unicode.unescape_code_point.
    change (N_of_ascii backslash =? 92)%N with true.
    change (N_of_ascii "u") with 117%N. cbn [N.eqb Pos.eqb].
    rewrite read_hex4_hex4 by done.
    destruct ((55296 <=? n)%N && (n <=? 56319)%N) eqn:Hhigh; [|done].
    apply andb_true_iff in Hhigh as [?%N.leb_le ?%N.leb_le]. lia.
  - cbv zeta. rewrite high_surrogate, low_surrogate by lia.
    remember (n - 65536)%N as v eqn:Hv.
    assert (v / 1024 < 1024)%N as Hq by (apply N.Div0.div_lt_upper_bound; lia).
    assert (v mod 1024 < 1024)%N as Hm by (apply N.mod_upper_bound; lia).
    pose proof (N.div_mod v 1024 ltac:(lia)) as Hdm.
    remember (v / 1024)%N as q eqn:Eq. remember (v mod 1024)%N as m eqn:Em.
    rewrite !append_cons, append_assoc, !append_cons.
    unfold Unicode.unescape_code_point.
    change (N_of_ascii backslash =? 92)%N with true.
    change (N_of_ascii "u") with 117%N. cbn [N.eqb Pos.eqb].
    rewrite read_hex4_hex4 by lia.
    destruct ((55296 <=? 55296 + q)%N && (55296 + q <=? 56319)%N) eqn:Hhigh.
    2:{ apply andb_false_iff in Hhigh as [?%N.leb_gt | ?%N.leb_gt]; lia. }
    change (N_of_ascii backslash =? 92)%N with true.
    change (N_of_ascii "u" =? 117)%N with true. cbn [andb].
    rewrite read_hex4_hex4 by lia.
    f_equal. f_equal. lia.
Qed.

Lemma escape_text_cons (n : N) (s : Unicode.text) (r : string) :
  Unicode.escape_text (n :: s) +:+ r
  = Unicode.escape_code_point n +:+ (Unicode.escape_text s +:+ r).
Proof.
  change (Unicode.escape_text (n :: s))
    with (Unicode.escape_code_point n +:+ Unicode.escape_text s).
  apply append_assoc.
Qed.

(** An escaped text ends at the first quotation mark: two quoted texts
    without lone surrogates that start equal texts are equal, and so is what
    follows them. *)
Lemma escape_text_cut (s1 s2 : Unicode.text) (r1 r2 : string) :
  Unicode.text_ok s1 → Unicode.text_ok s2 →
  Unicode.escape_text s1 +:+ String dquote r1 = Unicode.escape_text s2 +:+ String dquote r2 →
  s1 = s2 ∧ r1 = r2.
Proof.
  intros H1. revert s2. induction H1 as [|n1 s1 Hn1 _ IH]; intros s2 H2;
    destruct H2 as [|n2 s2 Hn2 H2]; rewrite ?escape_text_cons; intros H.
  - change (String dquote r1 = String dquote r2) in H. by injection H as ->.
  - apply (f_equal Unicode.unescape_code_point) in H.
    rewrite unescape_escape_code_point in H by done. discriminate H.
  - apply (f_equal Unicode.unescape_code_point) in H.
    rewrite unescape_escape_code_point in H by done. discriminate H.
  - apply (f_equal Unicode.unescape_code_point) in H.
    rewrite !unescape_escape_code_point in H by done. injection H as -> H.
    by destruct (IH s2 H2 H) as [-> ->].
Qed.

(** On the code points below 256 the encoder of texts is the encoder of the
    one-byte strings, so a call has the same key in both. *)

Lemma escape_code_point_ascii (c : ascii) :
  Unicode.escape_code_point (N_of_ascii c) = Json.escape_char c.
Proof. destruct c as [[] [] [] [] [] [] [] []]; reflexivity. Qed.

Lemma escape_text_of_string (s : string) :
  Unicode.escape_text (Unicode.of_string s) = Json.escape_chars s.
Proof.
  induction s as [|c s IH]; [done|].
  change (Unicode.escape_text (Unicode.of_string (String c s)))
    with (Unicode.escape_code_point (N_of_ascii c)
          +:+ Unicode.escape_text (Unicode.of_string s)).
  change (Json.escape_chars (String c s)) with (Json.escape_char c +:+ Json.escape_chars s).
  by rewrite escape_code_point_ascii, IH.
Qed.

Lemma key_of_call (c : ToolCall) : Unicode.key_of (of_call c) = key_of c.
Proof.
  destruct c; unfold Unicode.key_of, key_of, Unicode.get_cache_key, get_cache_key; simpl;
    rewrite ?escape_text_of_string; reflexivity.
Qed.

Lemma text_ok_of_string (s : string) : Unicode.text_ok (Unicode.of_string s).
Proof.
  induction s as [|c s IH]; [constructor|]. constructor; [|exact IH].
  pose proof (N_ascii_bounded c). unfold Unicode.code_point_ok. lia.
Qed.

(** The condition on surrogates is needed: the two surrogates of U+1F600
    written as two characters have the escapes of U+1F600 itself, so the two
    locations share a key and are different requests. *)
Lemma lone_surrogates_share_a_key :
  let c1 := Unicode.CurrentWeather [55357; 56832]%N (Unicode.of_string "metric") in
  let c2 := Unicode.CurrentWeather [128512]%N (Unicode.of_string "metric") in
  Unicode.key_of c1 = Unicode.key_of c2 ∧ Unicode.request_of c1 ≠ Unicode.request_of c2.
Proof. split; [reflexivity | discriminate]. Qed.

Ltac cut_utext H :=
  unfold Json.quoted in H; norm_text H;
  apply escape_text_cut in H as [? H]; [subst | done..].
Ltac next_item H := injection H as H; norm_text H.

(** X7. The cache never answers a request with the payload of another one. Two
    calls of the tools that have the same cache key make the same request:
    the same endpoint and the same parameters (for a forecast and a search,
    after the cap on [days] and [limit]). The texts are any Python strings
    without lone surrogates: every code point is below 0x110000 and outside
    0xD800..0xDFFF, escaped as [json.dumps] does over the whole range (four
    hex digits in the basic plane, a surrogate pair above it). Float
    arguments are taken as texts that [repr] can produce. *)
Theorem same_key_same_request (c1 c2 : Unicode.ToolCall) :
  Unicode.arguments_ok c1 → Unicode.arguments_ok c2 →
  Unicode.key_of c1 = Unicode.key_of c2 →
  Unicode.request_of c1 = Unicode.request_of c2.
Proof.
  intros Hok1 Hok2 H.
  destruct c1, c2;
    try (exfalso; unfold Unicode.key_of, Unicode.get_cache_key in H; simpl in H;
         first
           [ apply (f_equal (String.get 4)) in H; vm_compute in H; discriminate H
           | apply (f_equal (String.get 40)) in H; vm_compute in H; discriminate H
           | apply (f_equal (String.get 50)) in H; vm_compute in H; discriminate H ]);
    simpl in Hok1, Hok2; destruct_and?;
    unfold Unicode.key_of, Unicode.get_cache_key in H; simpl in H;
    apply (inj (String.append _)) in H; apply (inj (String.append ":")) in H;
    next_item H.
  - cut_utext H. next_item H. cut_utext H. done.
  - cut_int H. next_item H. cut_utext H. next_item H. cut_utext H. simpl. congruence.
  - cut_int H. next_item H. cut_utext H. simpl. congruence.
  - cut_float H. next_item H. cut_float H. next_item H. cut_utext H. done.
  - cut_float H. next_item H. cut_float H. done.
Qed.

(** Two forecasts for a city spelled outside Latin-1, with a character above
    the basic plane, seven days and five: one key, one request. *)
Lemma same_key_same_request_witness :
  Unicode.request_of
    (Unicode.Forecast [321; 243; 100; 378; 32; 128512]%N (Unicode.of_string "metric") 7)
  = Unicode.request_of
      (Unicode.Forecast [321; 243; 100; 378; 32; 128512]%N (Unicode.of_string "metric") 5).
Proof.
  assert (Unicode.text_ok [321; 243; 100; 378; 32; 128512]%N) as Hcity.
  { repeat constructor; unfold Unicode.code_point_ok; lia. }
  exact (same_key_same_request
           (Unicode.Forecast [321; 243; 100; 378; 32; 128512]%N (Unicode.of_string "metric") 7)
           (Unicode.Forecast [321; 243; 100; 378; 32; 128512]%N (Unicode.of_string "metric") 5)
           (conj Hcity (text_ok_of_string "metric"))
           (conj Hcity (text_ok_of_string "metric"))
           eq_refl).
Defined.


(** ** What success leaves behind *)

(** X16. Whenever a request returns success, the object it returns is the payload
    of the entry now cached under the key of the request, and that entry is
    fresh: success is returned for cached payloads only. *)
Theorem success_is_cached
    (env : Env) (endpoint : string) (params : dict) (w : World) (l : loc) :
  (make_weather_request env endpoint params w).1 = Return (Success l) →
  let w' := (make_weather_request env endpoint params w).2 in
  ∃ e, _cache w' !! get_cache_key endpoint params = Some e
       ∧ data e = l
       ∧ is_Some (heap w' !! l)
       ∧ (clock w' - timestamp e < CACHE_TTL)%Q.
Proof.
  unfold make_weather_request.
  destruct (negb (truthy (JStr (API_KEY env)))); [done|].
  assert (Hfetch : ∀ c,
    (fetch env endpoint (get_cache_key endpoint params)
       (dict_set "appid" (JStr (API_KEY env)) params) (with_cache c w)).1
    = Return (Success l) →
    let w' := (fetch env endpoint (get_cache_key endpoint params)
                 (dict_set "appid" (JStr (API_KEY env)) params) (with_cache c w)).2 in
    ∃ e, _cache w' !! get_cache_key endpoint params = Some e ∧ data e = l
         ∧ is_Some (heap w' !! l) ∧ (clock w' - timestamp e < CACHE_TTL)%Q).
  { intros c. unfold fetch.
    destruct (upstream env _ endpoint _) as [[sc [msg|j]| |msg|msg] dt]; simpl;
      repeat (match goal with |- context [if ?b then _ else _] => destruct b eqn:? end);
      simpl; try done.
    intros [= <-]. eexists. split; [apply lookup_insert_eq|]. simpl.
    split; [done|]. split; [rewrite lookup_insert_eq; eauto|].
    unfold CACHE_TTL. lra. }
  unfold get_cached.
  destruct (_cache w !! get_cache_key endpoint params) as [e|] eqn:He; [|apply Hfetch].
  destruct (Qltb (clock w - timestamp e) CACHE_TTL) eqn:Hq; [|apply Hfetch].
  change (deref (with_cache (_cache w) w) (data e)) with (deref w (data e)).
  destruct (truthy (deref w (data e))); [|apply Hfetch].
  destruct (deref w (data e)); try done. simpl. intros [= <-].
  exists e. split; [done|]. split; [done|]. split; [rewrite lookup_insert_eq; eauto|].
  by apply Qltb_lt.
Qed.

Lemma success_is_cached_witness :
  ∃ e, _cache (make_weather_request
                 (env_with test_api_key (Response 200 (inr mock_weather_response)))
                 (BASE_URL +:+ "/weather") london_params empty_world).2 !! london_key = Some e
       ∧ data e = 1%positive.
Proof.
  destruct (success_is_cached
              (env_with test_api_key (Response 200 (inr mock_weather_response)))
              (BASE_URL +:+ "/weather") london_params empty_world 1%positive eq_refl)
    as (e & He & Hd & _).
  exists e. split; [exact He | exact Hd].
Defined.

(** ** Forecasts *)

Lemma forecast_item_returns (env : Env) (item : json) :
  forecast_item_ok env item → ∃ y, forecast_item env item = Return y.
Proof.
  destruct item as [| | | | | |it]; try done.
  intros ([iso Hdt] & Hmain & Hweather & Hwind & Hclouds).
  destruct (get2_returns it "main" "temp" Hmain) as [temp Htemp].
  destruct (get2_returns it "main" "feels_like" Hmain) as [feels Hfeels].
  destruct (get2_returns it "main" "temp_min" Hmain) as [tmin Htmin].
  destruct (get2_returns it "main" "temp_max" Hmain) as [tmax Htmax].
  destruct (get2_returns it "main" "pressure" Hmain) as [pressure Hpressure].
  destruct (get2_returns it "main" "humidity" Hmain) as [humidity Hhumidity].
  destruct (weather0_returns it "description" Hweather) as [description Hdescription].
  destruct (weather0_returns it "icon" Hweather) as [icon Hicon].
  destruct (get2_returns it "wind" "speed" Hwind) as [speed Hspeed].
  destruct (get2_returns it "clouds" "all" Hclouds) as [clouds Hall].
  unfold forecast_item.
  rewrite Htemp, Hfeels, Htmin, Htmax, Hpressure, Hhumidity, Hdescription, Hicon,
    Hspeed, Hall.
  simpl. rewrite Hdt. simpl. eauto.
Qed.

Lemma for_each_forecast_items (env : Env) (xs : list json) :
  Forall (forecast_item_ok env) xs →
  ∃ ys, for_each (forecast_item env) xs = Return ys ∧ length ys = length xs.
Proof.
  induction 1 as [|x xs Hx _ (ys & Hys & Hlen)].
  - by exists [].
  - destruct (forecast_item_returns env x Hx) as [y Hy].
    exists (y :: ys). split; [|simpl; by rewrite Hlen].
    change (for_each (forecast_item env) (x :: xs))
      with (y' ← forecast_item env x; ys' ← for_each (forecast_item env) xs;
            Return (y' :: ys')).
    by rewrite Hy, Hys.
Qed.

(** X17. A forecast that goes upstream and gets a payload with a ["city"] object
    and a ["list"] of readable items returns success with the name and the
    country of the city and one forecast entry per item of the list: the
    number of entries is the number the provider sent, whatever [days] was. *)
Theorem get_forecast_one_entry_per_item
    (env : Env) (location units : string) (days : Z) (w : World)
    (d city : dict) (xs : list json) (dt : Q) :
  API_KEY env ≠ EmptyString →
  cache_hit (BASE_URL +:+ "/forecast")
    [("q", JStr location); ("units", JStr units); ("cnt", JInt (Z.min days 5 * 8))] w = false →
  upstream env (length (calls w)) (BASE_URL +:+ "/forecast")
    (sent_params env [("q", JStr location); ("units", JStr units);
                      ("cnt", JInt (Z.min days 5 * 8))])
  = (Response 200 (inr (JDict d)), dt) →
  dict_lookup "list" d = Some (JList xs) →
  Forall (forecast_item_ok env) xs →
  dict_lookup "city" d = Some (JDict city) →
  object_or_absent "coord" city →
  ∃ out forecasts,
    (get_forecast env location units days w).1 = Return out
    ∧ path ["success"] out = Some (JBool true)
    ∧ path ["location"; "name"] out = Some (default JNull (dict_lookup "name" city))
    ∧ path ["location"; "country"] out = Some (default JNull (dict_lookup "country" city))
    ∧ path ["forecast"] out = Some (JList forecasts)
    ∧ length forecasts = length xs
    ∧ path ["units"] out = Some (JStr units).
Proof.
  intros Hk Hmiss Hup Hlist Hxs Hcity Hcoord.
  unfold get_forecast, request_then.
  rewrite (make_weather_request_stores env _ _ w (JDict d) dt) by done.
  unfold deref. simpl. rewrite lookup_insert_eq. simpl.
  destruct (for_each_forecast_items env xs Hxs) as (ys & Hys & Hlen).
  destruct (get2_returns city "coord" "lat" Hcoord) as [lat Hlat].
  destruct (get2_returns city "coord" "lon" Hcoord) as [lon Hlon].
  unfold forecast_output, get3, get2 in *. simpl in *.
  rewrite Hlist. simpl. rewrite Hys. simpl. rewrite Hcity. simpl.
  rewrite Hlat. simpl. rewrite Hlon. simpl.
  exists (JDict [
    ("success", JBool true);
    ("location", JDict [
       ("name", default JNull (dict_lookup "name" city));
       ("country", default JNull (dict_lookup "country" city));
       ("coordinates", JDict [("latitude", lat); ("longitude", lon)])]);
    ("forecast", JList ys);
    ("units", JStr units)]), ys.
  repeat split; done.
Qed.

Lemma get_forecast_one_entry_per_item_witness :
  ∃ out forecasts,
    (get_forecast (env_with test_api_key (Response 200 (inr mock_forecast_response)))
       "Paris,FR" "metric" 3 empty_world).1 = Return out
    ∧ path ["location"; "name"] out = Some (JStr "Paris")
    ∧ path ["forecast"] out = Some (JList forecasts)
    ∧ length forecasts = 1%nat.
Proof.
  destruct (get_forecast_one_entry_per_item
              (env_with test_api_key (Response 200 (inr mock_forecast_response)))
              "Paris,FR" "metric" 3 empty_world
              [("city", JDict [("name", JStr "Paris"); ("country", JStr "FR");
                               ("coord", JDict [("lat", JFloat "48.8566");
                                                ("lon", JFloat "2.3522")])]);
               ("list", JList [
                  JDict [("dt", JInt 1697450000);
                         ("main", JDict [("temp", JFloat "18.5"); ("feels_like", JFloat "17.8");
                                         ("temp_min", JFloat "17.0"); ("temp_max", JFloat "19.0");
                                         ("pressure", JInt 1015); ("humidity", JInt 65)]);
                         ("weather", JList [JDict [("description", JStr "clear sky");
                                                   ("icon", JStr "01d")]]);
                         ("wind", JDict [("speed", JFloat "3.5")]);
                         ("clouds", JDict [("all", JInt 10)]);
                         ("pop", JFloat "0.0")]])]
              [("name", JStr "Paris"); ("country", JStr "FR");
               ("coord", JDict [("lat", JFloat "48.8566"); ("lon", JFloat "2.3522")])]
              [JDict [("dt", JInt 1697450000);
                      ("main", JDict [("temp", JFloat "18.5"); ("feels_like", JFloat "17.8");
                                      ("temp_min", JFloat "17.0"); ("temp_max", JFloat "19.0");
                                      ("pressure", JInt 1015); ("humidity", JInt 65)]);
                      ("weather", JList [JDict [("description", JStr "clear sky");
                                                ("icon", JStr "01d")]]);
                      ("wind", JDict [("speed", JFloat "3.5")]);
                      ("clouds", JDict [("all", JInt 10)]);
                      ("pop", JFloat "0.0")]]
              0 ltac:(discriminate) eq_refl eq_refl eq_refl)
    as (out & forecasts & Hout & _ & Hname & _ & Hf & Hlen & _).
  - repeat constructor. eexists. reflexivity.
  - reflexivity.
  - exact I.
  - exists out, forecasts. repeat split; assumption.
Defined.

(** * server.py *)

Example contains_error_cases :
  Server.contains_error (JStr "an error occurred") = Return true
  ∧ Server.contains_error (JStr "fine") = Return false
  ∧ Server.contains_error (JList [JStr "error"]) = Return true
  ∧ Server.contains_error (JList [JStr "errors"]) = Return false
  ∧ Server.contains_error (JDict [("cod", JInt 200)]) = Return false
  ∧ Server.contains_error Server.not_configured_dict = Return true
  ∧ Server.contains_error (JInt 3) = Raise TypeError.
Proof. repeat split. Qed.

Section ServerFacts.
Context (env : Env) (lib : Server.Lib).

Lemma server_make_request_unconfigured endpoint params w :
  API_KEY env = EmptyString →
  Server._make_request env lib endpoint params w
  = (Server.Returned (Server.Fresh Server.not_configured_dict), w).
Proof. intros H. unfold Server._make_request. by rewrite H. Qed.

Lemma server_make_request_miss endpoint params w :
  API_KEY env ≠ EmptyString → cache_hit endpoint params w = false →
  Server._make_request env lib endpoint params w
  = Server.fetch env lib endpoint (get_cache_key endpoint params) (sent_params env params)
      (with_cache (cache_after_lookup endpoint params w) w).
Proof.
  intros Hk Hmiss. unfold Server._make_request, cache_hit, cache_after_lookup in *.
  rewrite api_key_truthy by done. simpl.
  destruct (get_cached _ _ _) as [[l|] c]; simpl in *; [|done].
  change (deref (with_cache c w) l) with (deref w l). by rewrite Hmiss.
Qed.

Lemma server_get_current_weather_unconfigured a w :
  API_KEY env = EmptyString →
  Server._get_current_weather env lib (JDict a) w
  = (Server.Returned (Server.Fresh Server.not_configured_dict), w).
Proof.
  intros H. unfold Server._get_current_weather.
  by rewrite server_make_request_unconfigured.
Qed.

Lemma server_compare_loop_unconfigured units xs w :
  API_KEY env = EmptyString →
  Server.compare_loop env lib units xs w
  = (map (λ _, Server.Fresh Server.not_configured_dict) xs, w).
Proof.
  intros H. induction xs as [|x xs IH]; simpl; [done|].
  rewrite server_make_request_unconfigured by done. simpl. by rewrite IH.
Qed.

Lemma server_compare_loop_length units xs w :
  length (Server.compare_loop env lib units xs w).1 = length xs.
Proof.
  revert w. induction xs as [|x xs IH]; intros w; [done|].
  change (Server.compare_loop env lib units (x :: xs) w)
    with (let '(r, w1) := Server._get_current_weather env lib
                            (JDict [("location", x); ("units", units)]) w in
          let entry := match r with
                       | Server.Returned weather => weather
                       | Server.Raises e =>
                           Server.Fresh (JDict [("location", x);
                                                ("error", JStr (Server.text lib e))])
                       end in
          let '(more, w2) := Server.compare_loop env lib units xs w1 in
          (entry :: more, w2)).
  destruct (Server._get_current_weather env lib _ w) as [r w1].
  specialize (IH w1). destruct (Server.compare_loop env lib units xs w1) as [more w2].
  simpl in *. by rewrite IH.
Qed.

End ServerFacts.

(** X18. Without an API key the server returns its own error dict, with the keys
    ["error"], ["message"] and ["signup"], from [_get_current_weather], and
    puts that dict in the comparison once per location; the state is
    untouched. *)
Theorem server_without_api_key (env : Env) (lib : Server.Lib) (w : World) :
  API_KEY env = EmptyString →
  (∀ a, Server._get_current_weather env lib (JDict a) w
        = (Server.Returned (Server.Fresh Server.not_configured_dict), w))
  ∧ (∀ a xs, dict_lookup "locations" a = Some (JList xs) →
       Server._compare_weather env lib (JDict a) w
       = (Server.Returned (JDict [
            ("locations", JList (map (λ _, Server.not_configured_dict) xs));
            ("units", default (JStr "metric") (dict_lookup "units" a));
            ("comparison_time", JStr (now_isoformat env (clock w)))]), w))
  ∧ path ["error"] Server.not_configured_dict = Some (JStr "API key not configured").
Proof.
  intros Hk. split; [|split; [|done]].
  - intros a. by apply server_get_current_weather_unconfigured.
  - intros a xs Hxs. unfold Server._compare_weather. rewrite Hxs. simpl.
    rewrite server_compare_loop_unconfigured by done. simpl.
    by rewrite map_map.
Qed.

Lemma server_without_api_key_witness :
  Server._get_current_weather (env_with EmptyString TimeoutException) lib_raising
    (JDict [("location", JStr "London,UK"); ("units", JStr "metric")]) empty_world
  = (Server.Returned (Server.Fresh Server.not_configured_dict), empty_world).
Proof.
  exact (proj1 (server_without_api_key (env_with EmptyString TimeoutException) lib_raising
                  empty_world eq_refl)
           [("location", JStr "London,UK"); ("units", JStr "metric")]).
Defined.

(** X19. In server.py a failure status is an exception, not a failure dict. When
    the request goes upstream and [raise_for_status] raises for the status of
    the response, [_make_request] raises that [HTTPStatusError]; one GET was
    sent, no payload was stored and no cache entry written. *)
Theorem server_request_raises_on_status
    (env : Env) (lib : Server.Lib) (endpoint : string) (params : dict) (w : World)
    (status_code : Z) (body : string + json) (msg : string) :
  API_KEY env ≠ EmptyString →
  cache_hit endpoint params w = false →
  outcome_of env endpoint params w = Response status_code body →
  Server.raise_for_status lib status_code = Some msg →
  let out := Server._make_request env lib endpoint params w in
  out.1 = Server.Raises (Server.HTTPStatusError msg)
  ∧ heap out.2 = heap w
  ∧ _cache out.2 = cache_after_lookup endpoint params w
  ∧ _cache out.2 ⊆ _cache w
  ∧ calls out.2 = (calls w ++ [(endpoint, sent_params env params)])%list.
Proof.
  intros Hk Hmiss Hout Hraise out. subst out.
  rewrite server_make_request_miss by done. unfold Server.fetch.
  unfold outcome_of in Hout. simpl.
  destruct (upstream env _ endpoint _) as [o dt]. simpl in Hout. subst o.
  rewrite Hraise. simpl. repeat split. apply get_cached_shrinks.
Qed.

Lemma server_request_raises_on_status_witness :
  (Server._make_request (env_with test_api_key (Response 404 (inl "not json"))) lib_raising
     (BASE_URL +:+ "/weather") london_params empty_world).1
  = Server.Raises (Server.HTTPStatusError "HTTP error 404").
Proof.
  exact (proj1 (server_request_raises_on_status
                  (env_with test_api_key (Response 404 (inl "not json"))) lib_raising
                  (BASE_URL +:+ "/weather") london_params empty_world
                  404 (inl "not json") "HTTP error 404"
                  ltac:(discriminate) eq_refl eq_refl eq_refl)).
Defined.

(** X20. The comparison of server.py takes any number of locations and never
    raises for a list of them: there is no check of the size of the list, and
    every exception of a location is caught and becomes the entry of that
    location. It returns exactly one entry per location. *)
Theorem server_compare_weather_any_size
    (env : Env) (lib : Server.Lib) (a : dict) (xs : list json) (w : World) :
  dict_lookup "locations" a = Some (JList xs) →
  ∃ entries,
    (Server._compare_weather env lib (JDict a) w).1
    = Server.Returned (JDict [
        ("locations", JList entries);
        ("units", default (JStr "metric") (dict_lookup "units" a));
        ("comparison_time",
         JStr (now_isoformat env (clock (Server._compare_weather env lib (JDict a) w).2)))])
    ∧ length entries = length xs.
Proof.
  intros Hxs. unfold Server._compare_weather. rewrite Hxs. simpl.
  pose proof (server_compare_loop_length env lib
                (default (JStr "metric") (dict_lookup "units" a)) xs w) as Hlen.
  destruct (Server.compare_loop env lib _ xs w) as [comparisons w']. simpl in *.
  eexists. split; [reflexivity|]. by rewrite length_map.
Qed.

Lemma server_compare_weather_any_size_witness :
  ∃ entries,
    (Server._compare_weather (env_with test_api_key (Response 404 (inl "not json")))
       lib_raising (JDict [("locations", JList [JStr "Atlantis"])]) empty_world).1
    = Server.Returned (JDict [
        ("locations", JList entries);
        ("units", JStr "metric");
        ("comparison_time", JStr "2023-10-16T09:53:20")])
    ∧ length entries = 1%nat.
Proof.
  exact (server_compare_weather_any_size
           (env_with test_api_key (Response 404 (inl "not json"))) lib_raising
           [("locations", JList [JStr "Atlantis"])] [JStr "Atlantis"] empty_world eq_refl).
Defined.

(** X21. The request function of server.py and the one of tools/common.py treat
    the state alike. When [raise_for_status] lets exactly the status 200
    pass, the two functions leave the same heap, cache, clock and upstream
    log, one returns a payload object exactly when the other returns success
    with that object, and one raises [TypeError] on a hit exactly when the
    other does. *)
Theorem request_functions_agree
    (env : Env) (lib : Server.Lib) (endpoint : string) (params : dict) (w : World) :
  (∀ status_code body, outcome_of env endpoint params w = Response status_code body →
     (Server.raise_for_status lib status_code = None ↔ status_code = 200)) →
  let server := Server._make_request env lib endpoint params w in
  let tools := make_weather_request env endpoint params w in
  server.2 = tools.2
  ∧ (∀ l, server.1 = Server.Returned (Server.Stored l) ↔ tools.1 = Return (Success l))
  ∧ (server.1 = Server.Raises (Server.Builtin TypeError) ↔ tools.1 = Raise TypeError).
Proof.
  intros Hstatus server tools. subst server tools.
  unfold Server._make_request, make_weather_request.
  destruct (negb (truthy (JStr (API_KEY env)))).
  { simpl. split; [done|]. split; [|done]. intros l. split; intros [=]. }
  assert (Hfetch :
    ∀ c, let ws := with_cache c w in
      (Server.fetch env lib endpoint (get_cache_key endpoint params)
         (dict_set "appid" (JStr (API_KEY env)) params) ws).2
      = (fetch env endpoint (get_cache_key endpoint params)
           (dict_set "appid" (JStr (API_KEY env)) params) ws).2
      ∧ (∀ l, (Server.fetch env lib endpoint (get_cache_key endpoint params)
                 (dict_set "appid" (JStr (API_KEY env)) params) ws).1
              = Server.Returned (Server.Stored l)
              ↔ (fetch env endpoint (get_cache_key endpoint params)
                   (dict_set "appid" (JStr (API_KEY env)) params) ws).1
                = Return (Success l))
      ∧ ((Server.fetch env lib endpoint (get_cache_key endpoint params)
            (dict_set "appid" (JStr (API_KEY env)) params) ws).1
         = Server.Raises (Server.Builtin TypeError)
         ↔ (fetch env endpoint (get_cache_key endpoint params)
              (dict_set "appid" (JStr (API_KEY env)) params) ws).1
           = Raise TypeError)).
  { intros c ws. subst ws. unfold Server.fetch, fetch, outcome_of, sent_params in *. simpl.
    destruct (upstream env _ endpoint _) as [[sc body| |msg|msg] dt]; simpl in *;
      try (split; [done|]; split; [intros l|]; split; intros [=]).
    specialize (Hstatus sc body eq_refl).
    destruct (Server.raise_for_status lib sc) as [msg|] eqn:Hr.
    - assert (sc ≠ 200) as Hne.
      { intros ->. pose proof (proj2 Hstatus eq_refl) as H0. congruence. }
      apply Z.eqb_neq in Hne. rewrite Hne.
      split; [by repeat case_match|].
      split; [intros l|]; split; intros H; repeat case_match; discriminate H.
    - rewrite (proj1 Hstatus eq_refl). simpl. destruct body as [msg|j]; simpl.
      + split; [done|]. split; [intros l|]; split; intros [=].
      + split; [done|]. split; [intros l; split; by intros [= <-] | split; intros [=]]. }
  destruct (get_cached _ _ _) as [[l0|] c]; [|apply Hfetch].
  destruct (truthy (deref (with_cache c w) l0)); [|apply Hfetch].
  destruct (deref (with_cache c w) l0); simpl;
    (split; [done|]); (split; [intros l; split; intros [=]; by subst | split; by intros [=]]).
Qed.

Lemma request_functions_agree_witness :
  (Server._make_request (env_with test_api_key (Response 200 (inr mock_weather_response)))
     lib_raising (BASE_URL +:+ "/weather") london_params empty_world).2
  = (make_weather_request (env_with test_api_key (Response 200 (inr mock_weather_response)))
       (BASE_URL +:+ "/weather") london_params empty_world).2.
Proof.
  refine (proj1 (request_functions_agree
                   (env_with test_api_key (Response 200 (inr mock_weather_response)))
                   lib_raising (BASE_URL +:+ "/weather") london_params empty_world _)).
  intros status_code body [= <- <-]. split; [reflexivity | reflexivity].
Defined.
